(** * Blogicum: the query and authorization rules of [blog/views.py]

    A shallow embedding of the class-based views of the blog application:
    the rows they select (visibility filters, ordering, comment counts,
    pagination) and the guards they put in front of mutation (ownership
    checks on posts and comments).

    The relational store is a record of tables, each a finite map from
    primary key to row.  Read-only views are functions into [result];
    views that write thread the store through the [View] monad. *)

From stdpp Require Import gmap strings list fin_maps sorting.
From Stdlib Require Import ZArith Lia.

Local Open Scope Z_scope.

(** ** Data model *)

Abbreviation pk := nat (only parsing).

(** Modelled from the spec: [models.py] is not part of the sources; the
    entities and their fields follow section 3 of the specification.  A
    timestamp is an instant on the integer time line. *)
Module User.
Record t := mk { username : string }.
End User.

Module Category.
Record t := mk { slug : string; is_published : bool }.
End Category.

Module Post.
Record t := mk {
  title : string;
  text : string;
  pub_date : Z;
  author : pk;
  location : option pk;
  category : pk;
  is_published : bool
}.

Definition set_author (u : pk) (p : t) : t :=
  mk (title p) (text p) (pub_date p) u (location p) (category p)
     (is_published p).
End Post.

Module Comment.
Record t := mk { text : string; post : pk; author : pk }.

Definition set_author (u : pk) (c : t) : t := mk (text c) (post c) u.
Definition set_post (p : pk) (c : t) : t := mk (text c) p (author c).
End Comment.

Record DB := mkDB {
  users : gmap pk User.t;
  categories : gmap pk Category.t;
  posts : gmap pk Post.t;
  comments : gmap pk Comment.t
}.

Definition with_posts (ps : gmap pk Post.t) (db : DB) : DB :=
  mkDB (users db) (categories db) ps (comments db).
Definition with_comments (cs : gmap pk Comment.t) (db : DB) : DB :=
  mkDB (users db) (categories db) (posts db) cs.

(** ** Requests and responses *)

(** [request.user]: the anonymous user, or the row of the user table the
    session belongs to.  Model instances compare by primary key, and the
    anonymous user equals no stored user. *)
Inductive request_user :=
  | AnonymousUser
  | AuthenticatedUser (uid : pk) (row : User.t).

Definition is_authenticated (u : request_user) : bool :=
  match u with AuthenticatedUser _ _ => true | AnonymousUser => false end.

(** [obj.author == request.user] *)
Definition user_eq (owner : pk) (u : request_user) : bool :=
  match u with
  | AuthenticatedUser uid _ => bool_decide (owner = uid)
  | AnonymousUser => false
  end.

Abbreviation QueryDict := (gmap string string) (only parsing).

Inductive http_method := GET | POST.

(** The [page] query parameter as [paginate_queryset] reads it. *)
Inductive page_param :=
  | page_absent
  | page_number (n : Z)
  | page_last
  | page_garbage.

Record HttpRequest := mkRequest {
  user : request_user;
  method : http_method;
  GET_page : page_param;
  POST_data : QueryDict
}.

Inductive url :=
  | blog_index
  | blog_post_detail (post_id : pk)
  | blog_profile (name : string)
  | login_url.

(** A post row of a listing, with its [comment_count] annotation. *)
Record PostRow := mkRow {
  row_pk : pk;
  row_post : Post.t;
  comment_count : nat
}.

Inductive context :=
  | form_context
  | detail_context (post_id : pk) (post : Post.t)
                   (post_comments : list (pk * Comment.t))
  | index_context (page_obj : list PostRow)
  | profile_context (profile : pk) (page_obj : list PostRow)
  | category_context (cat : pk) (page_obj : list PostRow).

Inductive HttpResponse :=
  | TemplateResponse (template : string) (ctx : context)
  | HttpResponseRedirect (to : url)
  | HttpResponseNotFound
  | HttpResponseForbidden
  | HttpResponseServerError.

(** ** Exceptions *)

Inductive exn :=
  | Http404
  | PermissionDenied
  | MultipleObjectsReturned.

Inductive result (A : Type) :=
  | Return (a : A)
  | Raise (e : exn).
Arguments Return {A} a.
Arguments Raise {A} e.

Global Instance result_ret : MRet result := @Return.
Global Instance result_bind : MBind result := λ A B k m,
  match m with
  | Return a => k a
  | Raise e => Raise e
  end.

(** What the framework's handler makes of an uncaught exception. *)
Definition response_for_exception (e : exn) : HttpResponse :=
  match e with
  | Http404 => HttpResponseNotFound
  | PermissionDenied => HttpResponseForbidden
  | MultipleObjectsReturned => HttpResponseServerError
  end.

Definition get_response (r : result HttpResponse) : HttpResponse :=
  match r with
  | Return resp => resp
  | Raise e => response_for_exception e
  end.

(** Views that write: the store is threaded through, and an exception
    leaves it as it was when raised. *)
Definition View (A : Type) : Type := DB → result A * DB.

Global Instance View_ret : MRet View := λ A a db, (Return a, db).
Global Instance View_bind : MBind View := λ A B k m db,
  match m db with
  | (Return a, db') => k a db'
  | (Raise e, db') => (Raise e, db')
  end.

Definition get_db : View DB := λ db, (Return db, db).
Definition lift {A} (r : result A) : View A := λ db, (r, db).

Definition handle (v : View HttpResponse) (db : DB) : HttpResponse * DB :=
  let '(r, db') := v db in (get_response r, db').

(** ** Query sets *)

(** [Model.objects.all()] *)
Definition objects_all {V} (table : gmap pk V) : list (pk * V) :=
  map_to_list table.

(** [queryset.get] on a lookup: exactly one match, else an exception;
    [get_object_or_404] turns [DoesNotExist] into [Http404]. *)
Definition get_object_or_404 {V} (table : gmap pk V)
    (lookup : pk → V → bool) : result (pk * V) :=
  match filter (λ r, lookup r.1 r.2 = true) (objects_all table) with
  | [] => Raise Http404
  | [r] => Return r
  | _ => Raise MultipleObjectsReturned
  end.

(** [get_object_or_404(Model, pk=...)] and [SingleObjectMixin.get_object]:
    the primary key identifies at most one row. *)
Definition get_by_pk {V} (table : gmap pk V) (id : pk) : result V :=
  match table !! id with
  | Some v => Return v
  | None => Raise Http404
  end.

(** [ordering = '-pub_date'] *)
Definition pub_date_desc : relation (pk * Post.t) :=
  λ a b, Post.pub_date b.2 ≤ Post.pub_date a.2.

Global Instance pub_date_desc_dec : RelDecision pub_date_desc :=
  λ a b, decide (Post.pub_date b.2 ≤ Post.pub_date a.2).

Definition order_by_pub_date_desc (qs : list (pk * Post.t))
    : list (pk * Post.t) :=
  merge_sort pub_date_desc qs.

(** [MultipleObjectMixin.get_queryset] for [model = Post] and
    [ordering = '-pub_date']. *)
Definition ListView_get_queryset (db : DB) : list (pk * Post.t) :=
  order_by_pub_date_desc (objects_all (posts db)).

(** [Count('comments')]: the comments whose [post] is the row. *)
Definition count_comments (db : DB) (post_id : pk) : nat :=
  length (filter (λ c, Comment.post c.2 = post_id)
                 (objects_all (comments db))).

Definition annotate_comment_count (db : DB) (qs : list (pk * Post.t))
    : list PostRow :=
  (λ r, mkRow r.1 r.2 (count_comments db r.1)) <$> qs.

(** [category__is_published=True]: the join on the category row. *)
Definition category__is_published (db : DB) (p : Post.t) : bool :=
  match categories db !! Post.category p with
  | Some c => Category.is_published c
  | None => false
  end.

(** [filter(is_published=True, pub_date__lte=now, category__is_published=True)] *)
Definition published_filter (db : DB) (now : Z) (p : Post.t) : bool :=
  Post.is_published p && bool_decide (Post.pub_date p ≤ now)
    && category__is_published db p.

(** ** Pagination *)

Definition paginate_by : nat := 10.

(** [Paginator.num_pages] with [orphans = 0] and
    [allow_empty_first_page = True]. *)
Definition num_pages (count : nat) : nat :=
  let hits := Nat.max 1 count in
  Nat.div (hits + paginate_by - 1) paginate_by.

(** [Paginator.validate_number] *)
Definition validate_number (count : nat) (number : Z) : result nat :=
  if bool_decide (number < 1) then Raise Http404
  else if bool_decide (Z.of_nat (num_pages count) < number) then
    (if bool_decide (number = 1) then Return 1%nat else Raise Http404)
  else Return (Z.to_nat number).

(** [Paginator.page]: the slice [bottom:top] of the object list. *)
Definition Paginator_page {A} (qs : list A) (number : Z) : result (list A) :=
  n ← validate_number (length qs) number;
  let bottom := ((n - 1) * paginate_by)%nat in
  let top := (bottom + paginate_by)%nat in
  let top := if bool_decide (length qs ≤ top)%nat then length qs else top in
  Return (take (top - bottom) (drop bottom qs)).

(** [MultipleObjectMixin.paginate_queryset] *)
Definition paginate_queryset {A} (qs : list A) (page : page_param)
    : result (list A) :=
  match page with
  | page_absent => Paginator_page qs 1
  | page_number n => Paginator_page qs n
  | page_last => Paginator_page qs (Z.of_nat (num_pages (length qs)))
  | page_garbage => Raise Http404
  end.

(** ** Read-only views *)

(** [PostsListView.get_queryset] *)
Definition PostsListView_get_queryset (db : DB) (now : Z) : list PostRow :=
  annotate_comment_count db
    (filter (λ r, published_filter db now r.2 = true)
            (ListView_get_queryset db)).


(** [ProfileListView.get_queryset]: the profile and the query set. *)
Definition ProfileListView_get_queryset (db : DB) (now : Z)
    (request : HttpRequest) (username : string)
    : result (pk * list PostRow) :=
  profile ← get_object_or_404 (users db)
            (λ _ u, bool_decide (User.username u = username));
  let queryset :=
    annotate_comment_count db
      (filter (λ r, Post.author r.2 = profile.1) (ListView_get_queryset db)) in
  let queryset :=
    if negb (user_eq profile.1 (user request)) then
      filter (λ r, published_filter db now (row_post r) = true) queryset
    else queryset in
  Return (profile.1, queryset).

Definition ProfileListView (db : DB) (now : Z) (request : HttpRequest)
    (username : string) : result HttpResponse :=
  '(profile, queryset) ← ProfileListView_get_queryset db now request username;
  page ← paginate_queryset queryset (GET_page request);
  Return (TemplateResponse "blog/profile.html" (profile_context profile page)).

(** [PostsInCategoryListView.get_queryset]: the category and the query
    set. *)
Definition PostsInCategoryListView_get_queryset (db : DB) (now : Z)
    (category_slug : string) : result (pk * list PostRow) :=
  category ← get_object_or_404 (categories db)
             (λ _ c, bool_decide (Category.slug c = category_slug)
                     && Category.is_published c);
  Return (category.1,
    annotate_comment_count db
      (filter (λ r, (Post.is_published r.2
                     && bool_decide (Post.pub_date r.2 ≤ now)
                     && bool_decide (Post.category r.2 = category.1)) = true)
              (ListView_get_queryset db))).

Definition PostsInCategoryListView (db : DB) (now : Z)
    (request : HttpRequest) (category_slug : string) : result HttpResponse :=
  '(category, queryset) ←
      PostsInCategoryListView_get_queryset db now category_slug;
  page ← paginate_queryset queryset (GET_page request);
  Return (TemplateResponse "blog/category.html"
            (category_context category page)).

(** [PostDetailView.get_object] *)
Definition PostDetailView_get_object (db : DB) (request : HttpRequest)
    (id : pk) : result Post.t :=
  post ← get_by_pk (posts db) id;
  if negb (Post.is_published post || user_eq (Post.author post) (user request))
  then Raise Http404
  else Return post.

(** [post.comments]: the reverse side of [Comment.post]. *)
Definition post_comments_of (db : DB) (id : pk) : list (pk * Comment.t) :=
  filter (λ c, Comment.post c.2 = id) (objects_all (comments db)).

Definition PostDetailView (db : DB) (request : HttpRequest) (id : pk)
    : result HttpResponse :=
  post ← PostDetailView_get_object db request id;
  Return (TemplateResponse "blog/detail.html"
            (detail_context id post (post_comments_of db id))).

(** ** Access mixins *)

(** [AccessMixin.handle_no_permission] with [raise_exception] unset: an
    authenticated user is refused, an anonymous one is sent to log in. *)
Definition handle_no_permission (u : request_user) : result HttpResponse :=
  if is_authenticated u then Raise PermissionDenied
  else Return (HttpResponseRedirect login_url).

(** The models [OnlyAuthorMixin] is mixed into: anything with an
    [author]. *)
Class Authored (V : Type) := author_of : V → pk.
Global Instance Post_authored : Authored Post.t := Post.author.
Global Instance Comment_authored : Authored Comment.t := Comment.author.

(** [OnlyAuthorMixin.test_func] *)
Definition OnlyAuthorMixin_test_func `{Authored V} (table : gmap pk V)
    (id : pk) (request : HttpRequest) : result bool :=
  object ← get_by_pk table id;
  Return (user_eq (author_of object) (user request)).

(** [UserPassesTestMixin.dispatch] *)
Definition UserPassesTestMixin_dispatch (test_func : DB → result bool)
    (request : HttpRequest) (super_dispatch : View HttpResponse)
    : View HttpResponse :=
  db ← get_db;
  user_test_result ← lift (test_func db);
  if negb user_test_result then lift (handle_no_permission (user request))
  else super_dispatch.

(** ** Writing to the store *)

(** The key an auto-increment column gives the next row. *)
Definition next_pk {V} (table : gmap pk V) : pk :=
  S (max_list (elements (dom table))).

Definition Post_create (p : Post.t) : View pk := λ db,
  let id := next_pk (posts db) in
  (Return id, with_posts (<[id := p]> (posts db)) db).

Definition Post_save (id : pk) (p : Post.t) : View unit := λ db,
  (Return tt, with_posts (<[id := p]> (posts db)) db).

(** Modelled from the spec: [models.py] is not part of the sources; a
    comment belongs to exactly one post, so it goes with its post. *)
Definition Post_delete (id : pk) : View unit := λ db,
  (Return tt,
   mkDB (users db) (categories db) (delete id (posts db))
        (filter (λ c, Comment.post c.2 ≠ id) (comments db))).

Definition Comment_create (c : Comment.t) : View pk := λ db,
  let id := next_pk (comments db) in
  (Return id, with_comments (<[id := c]> (comments db)) db).

Definition Comment_save (id : pk) (c : Comment.t) : View unit := λ db,
  (Return tt, with_comments (<[id := c]> (comments db)) db).

Definition Comment_delete (id : pk) : View unit := λ db,
  (Return tt, with_comments (delete id (comments db)) db).

(** ** Views that write *)

Section Forms.

(** [forms.py] is not part of the sources.  A bound model form is taken
    as a function of the store, the submitted data and the instance
    being edited ([None] for a new one): [None] when the data does not
    validate, else the instance with the cleaned data written to it.
    Which fields the form writes is left open. *)
Variable PostForm : DB → QueryDict → option Post.t → option Post.t.
Variable CommentForm : DB → QueryDict → option Comment.t → option Comment.t.

(** [PostCreateView]: [LoginRequiredMixin.dispatch], then
    [ProcessFormView.get]/[post] with the view's [form_valid]. *)
Definition PostCreateView (request : HttpRequest) : View HttpResponse :=
  match user request with
  | AnonymousUser => lift (handle_no_permission (user request))
  | AuthenticatedUser uid row =>
      match method request with
      | GET => mret (TemplateResponse "blog/create.html" form_context)
      | POST =>
          db ← get_db;
          match PostForm db (POST_data request) None with
          | Some instance =>
              let instance := Post.set_author uid instance in
              _ ← Post_create instance;
              mret (HttpResponseRedirect (blog_profile (User.username row)))
          | None => mret (TemplateResponse "blog/create.html" form_context)
          end
      end
  end.

(** [PostUpdateView.dispatch] and the [UpdateView] behind it. *)
Definition PostUpdateView (request : HttpRequest) (id : pk)
    : View HttpResponse :=
  db ← get_db;
  object ← lift (get_by_pk (posts db) id);
  if negb (user_eq (Post.author object) (user request)) then
    mret (HttpResponseRedirect (blog_post_detail id))
  else
    match method request with
    | GET => mret (TemplateResponse "blog/create.html" form_context)
    | POST =>
        match PostForm db (POST_data request) (Some object) with
        | Some instance =>
            _ ← Post_save id instance;
            mret (HttpResponseRedirect (blog_post_detail id))
        | None => mret (TemplateResponse "blog/create.html" form_context)
        end
    end.

(** [PostDeleteView]: [OnlyAuthorMixin] in front of [DeleteView]. *)
Definition PostDeleteView (request : HttpRequest) (id : pk)
    : View HttpResponse :=
  UserPassesTestMixin_dispatch
    (λ db, OnlyAuthorMixin_test_func (posts db) id request) request
    (db ← get_db;
     _ ← lift (get_by_pk (posts db) id);
     match method request with
     | GET => mret (TemplateResponse "blog/create.html" form_context)
     | POST =>
         _ ← Post_delete id;
         mret (HttpResponseRedirect blog_index)
     end).

(** [CommentCreateView] with its [form_valid]. *)
Definition CommentCreateView (request : HttpRequest) (id : pk)
    : View HttpResponse :=
  match user request with
  | AnonymousUser => lift (handle_no_permission (user request))
  | AuthenticatedUser uid row =>
      match method request with
      | GET => mret (TemplateResponse "includes/comments.html" form_context)
      | POST =>
          db ← get_db;
          match CommentForm db (POST_data request) None with
          | Some instance =>
              let instance := Comment.set_author uid instance in
              _ ← lift (get_by_pk (posts db) id);
              let instance := Comment.set_post id instance in
              _ ← Comment_create instance;
              mret (HttpResponseRedirect (blog_post_detail id))
          | None =>
              mret (TemplateResponse "includes/comments.html" form_context)
          end
      end
  end.

(** [get_success_url] of the comment views: the comment is read back. *)
Definition Comment_get_success_url (comment_id : pk) : View url :=
  db ← get_db;
  comment ← lift (get_by_pk (comments db) comment_id);
  mret (blog_post_detail (Comment.post comment)).

(** [CommentUpdateView]: [OnlyAuthorMixin] in front of [UpdateView],
    the comment looked up by [comment_id]. *)
Definition CommentUpdateView (request : HttpRequest) (comment_id : pk)
    : View HttpResponse :=
  UserPassesTestMixin_dispatch
    (λ db, OnlyAuthorMixin_test_func (comments db) comment_id request)
    request
    (db ← get_db;
     object ← lift (get_by_pk (comments db) comment_id);
     match method request with
     | GET => mret (TemplateResponse "blog/comment.html" form_context)
     | POST =>
         match CommentForm db (POST_data request) (Some object) with
         | Some instance =>
             _ ← Comment_save comment_id instance;
             success_url ← Comment_get_success_url comment_id;
             mret (HttpResponseRedirect success_url)
         | None => mret (TemplateResponse "blog/comment.html" form_context)
         end
     end).

(** [CommentDeleteView]: [OnlyAuthorMixin] in front of [DeleteView]. *)
Definition CommentDeleteView (request : HttpRequest) (comment_id : pk)
    : View HttpResponse :=
  UserPassesTestMixin_dispatch
    (λ db, OnlyAuthorMixin_test_func (comments db) comment_id request)
    request
    (db ← get_db;
     _ ← lift (get_by_pk (comments db) comment_id);
     match method request with
     | GET => mret (TemplateResponse "blog/comment.html" form_context)
     | POST =>
         success_url ← Comment_get_success_url comment_id;
         _ ← Comment_delete comment_id;
         mret (HttpResponseRedirect success_url)
     end).

End Forms.


Definition User_save (id : pk) (u : User.t) : View unit := λ db,
  (Return tt, mkDB (<[id := u]> (users db)) (categories db) (posts db)
                   (comments db)).

Section ProfileForm.

(** The model form [UpdateView] builds from [fields] for the user model,
    taken like the other forms as a function of the store, the submitted
    data and the instance being edited. *)
Variable UserForm : DB → QueryDict → option User.t → option User.t.

(** [ProfileUpdateView]: [LoginRequiredMixin] in front of [UpdateView];
    [get_object] is [request.user], and the success URL is the profile
    of the saved user name. *)
Definition ProfileUpdateView (request : HttpRequest) : View HttpResponse :=
  match user request with
  | AnonymousUser => lift (handle_no_permission (user request))
  | AuthenticatedUser uid row =>
      match method request with
      | GET => mret (TemplateResponse "blog/user.html" form_context)
      | POST =>
          db ← get_db;
          match UserForm db (POST_data request) (Some row) with
          | Some instance =>
              _ ← User_save uid instance;
              mret (HttpResponseRedirect
                      (blog_profile (User.username instance)))
          | None => mret (TemplateResponse "blog/user.html" form_context)
          end
      end
  end.

End ProfileForm.

(** * Properties *)

(** ** The words of the specification *)

(** "is_published AND pub_date <= now AND category.is_published" *)
Definition publicly_visible (db : DB) (now : Z) (p : Post.t) : Prop :=
  Post.is_published p = true ∧ Post.pub_date p ≤ now ∧
  ∃ c, categories db !! Post.category p = Some c ∧
       Category.is_published c = true.

(** The post [p] stored under [id] is among the rows of a listing. *)
Definition listed (id : pk) (p : Post.t) (qs : list PostRow) : Prop :=
  ∃ n, mkRow id p n ∈ qs.


(** What a non-author gets from a guarded view. *)
Definition refusal (u : request_user) : HttpResponse :=
  if is_authenticated u then HttpResponseForbidden
  else HttpResponseRedirect login_url.



(** Case analysis on a lookup in a table written out with inserts. *)
Ltac lookup_cases H :=
  repeat first
    [ rewrite lookup_empty in H; discriminate H
    | rewrite lookup_insert in H; case_decide; simplify_eq ].

(** Running a view: unfold the view, the mixins and the monad. *)
Ltac unfold_views :=
  unfold handle, PostCreateView, PostUpdateView, PostDeleteView,
    CommentCreateView, CommentUpdateView, CommentDeleteView,
    ProfileUpdateView, UserPassesTestMixin_dispatch,
    OnlyAuthorMixin_test_func, Comment_get_success_url, Post_create,
    Post_save, Post_delete, Comment_create, Comment_save, Comment_delete,
    User_save, handle_no_permission, mbind, mret, View_bind, View_ret,
    result_bind, get_db, lift, get_by_pk.

(** A user form that takes the new name from [username]. *)
Definition example_UserForm (_ : DB) (data : QueryDict)
    (instance : option User.t) : option User.t :=
  name ← data !! "username";
  Some (User.mk name).

(** ** A small store for the examples

    Two users; a published and an unpublished category; a public post, a
    post dated after the time of the requests (10), an unpublished post
    and a post in the unpublished category; one comment. *)

Definition alice : User.t := User.mk "alice".
Definition bob : User.t := User.mk "bob".

Definition post1 : Post.t := Post.mk "first" "text" 5 1 None 1 true.
Definition post2 : Post.t := Post.mk "later" "text" 20 1 None 1 true.
Definition post3 : Post.t := Post.mk "draft" "text" 7 2 None 1 false.
Definition post4 : Post.t := Post.mk "aside" "text" 8 2 None 2 true.

Definition comment1 : Comment.t := Comment.mk "hello" 1 2.

Definition example_db : DB :=
  mkDB (<[1%nat := alice]> (<[2%nat := bob]> ∅))
       (<[1%nat := Category.mk "news" true]>
          (<[2%nat := Category.mk "drafts" false]> ∅))
       (<[1%nat := post1]> (<[2%nat := post2]>
          (<[3%nat := post3]> (<[4%nat := post4]> ∅))))
       (<[1%nat := comment1]> ∅).

Definition request_of (u : request_user) (m : http_method) : HttpRequest :=
  mkRequest u m page_absent (<["text" := "hello"]> (<["author" := "1"]> ∅)).

(** A post form that needs a [text] and honours a submitted [author]
    field by writing user 1 to the instance. *)
Definition example_PostForm (_ : DB) (data : QueryDict)
    (instance : option Post.t) : option Post.t :=
  body ← data !! "text";
  let base := default (Post.mk "" "" 0 0 None 1 true) instance in
  let owner := if data !! "author" is Some _ then 1%nat else Post.author base in
  Some (Post.mk (Post.title base) body (Post.pub_date base) owner
                (Post.location base) (Post.category base)
                (Post.is_published base)).



(** A user form that refuses a name another user bears, and lets a user
    keep the own name. *)
Definition strict_UserForm (db : DB) (data : QueryDict)
    (instance : option User.t) : option User.t :=
  name ← data !! "username";
  let own := match instance with
             | Some u => bool_decide (User.username u = name)
             | None => false
             end in
  let taken := bool_decide
                 (Exists (λ r : pk * User.t, User.username r.2 = name)
                         (objects_all (users db))) in
  if own || negb taken then Some (User.mk name) else None.

(** A comment form that needs a [text]. *)
Definition example_CommentForm (_ : DB) (data : QueryDict)
    (instance : option Comment.t) : option Comment.t :=
  body ← data !! "text";
  let base := default (Comment.mk "" 0 0) instance in
  Some (Comment.mk body (Comment.post base) (Comment.author base)).

(** ** Query sets *)

Lemma elem_of_objects_all {V} (table : gmap pk V) id v :
  (id, v) ∈ objects_all table ↔ table !! id = Some v.
Proof. apply elem_of_map_to_list. Qed.

Global Instance pub_date_desc_total : Total pub_date_desc.
Proof. intros a b. unfold pub_date_desc. lia. Qed.

Global Instance pub_date_desc_trans : Transitive pub_date_desc.
Proof. intros a b c. unfold pub_date_desc. lia. Qed.

Lemma elem_of_ListView_get_queryset db id p :
  (id, p) ∈ ListView_get_queryset db ↔ posts db !! id = Some p.
Proof.
  unfold ListView_get_queryset, order_by_pub_date_desc.
  rewrite merge_sort_Permutation. apply elem_of_objects_all.
Qed.




Lemma elem_of_annotate_comment_count db qs r :
  r ∈ annotate_comment_count db qs ↔
  (row_pk r, row_post r) ∈ qs ∧ comment_count r = count_comments db (row_pk r).
Proof.
  unfold annotate_comment_count. rewrite list_elem_of_fmap. split.
  - intros ([id p] & -> & Hin). done.
  - intros [Hin Hc]. exists (row_pk r, row_post r). split; [|done].
    destruct r; simpl in *. by rewrite Hc.
Qed.


Lemma published_filter_spec db now p :
  published_filter db now p = true ↔ publicly_visible db now p.
Proof.
  unfold published_filter, publicly_visible, category__is_published.
  rewrite !andb_true_iff, bool_decide_eq_true. split.
  - intros [[? ?] Hc]. destruct (categories db !! Post.category p) eqn:E; eauto.
    discriminate.
  - intros (? & ? & c & -> & ?). done.
Qed.

(** ** [get_object_or_404] *)

Lemma get_object_or_404_Return {V} (table : gmap pk V) lookup r :
  get_object_or_404 table lookup = Return r →
  table !! r.1 = Some r.2 ∧ lookup r.1 r.2 = true.
Proof.
  unfold get_object_or_404. intros Hget.
  assert (r ∈ filter (λ r, lookup r.1 r.2 = true) (objects_all table)) as Hin.
  { destruct (filter _ _) as [|x [|y l]]; simplify_eq. by left. }
  apply list_elem_of_filter in Hin as [? Hin]. destruct r as [id v].
  by apply elem_of_objects_all in Hin.
Qed.

Lemma get_object_or_404_not_found {V} (table : gmap pk V) lookup :
  (∀ id v, table !! id = Some v → lookup id v = false) →
  get_object_or_404 table lookup = Raise Http404.
Proof.
  intros Hnone. unfold get_object_or_404.
  destruct (filter _ _) as [|[id v] l] eqn:E; [done|].
  assert ((id, v) ∈ filter (λ r, lookup r.1 r.2 = true) (objects_all table))
    as [Hl Hin%elem_of_objects_all]%list_elem_of_filter
    by (rewrite E; left).
  simpl in Hl. rewrite (Hnone _ _ Hin) in Hl. discriminate.
Qed.

Lemma get_object_or_404_unique {V} (table : gmap pk V) lookup id v :
  table !! id = Some v → lookup id v = true →
  (∀ id' v', table !! id' = Some v' → lookup id' v' = true → id' = id) →
  get_object_or_404 table lookup = Return (id, v).
Proof.
  intros Hin Hl Huniq. unfold get_object_or_404.
  pose proof (NoDup_filter (λ r : pk * V, lookup r.1 r.2 = true) _
                (NoDup_map_to_list table)) as Hnd.
  assert (∀ x, x ∈ filter (λ r : pk * V, lookup r.1 r.2 = true)
                     (objects_all table) ↔ x = (id, v)) as Hall.
  { intros [id' v']. rewrite list_elem_of_filter, elem_of_objects_all. simpl.
    split; [|by intros [= -> ->]].
    intros [Hl' Hin']. pose proof (Huniq _ _ Hin' Hl') as ->. congruence. }
  unfold objects_all in *.
  destruct (filter _ _) as [|x [|y l]].
  - exfalso. eapply not_elem_of_nil, Hall. reflexivity.
  - f_equal. apply Hall. by left.
  - exfalso. assert (x = (id, v)) as -> by (apply Hall; left).
    assert (y = (id, v)) as -> by (apply Hall; right; left).
    apply NoDup_cons in Hnd as [Hnot _]. apply Hnot. by left.
Qed.

(** ** The three listing query sets *)

Lemma elem_of_PostsListView_get_queryset db now r :
  r ∈ PostsListView_get_queryset db now ↔
  posts db !! row_pk r = Some (row_post r) ∧
  publicly_visible db now (row_post r) ∧
  comment_count r = count_comments db (row_pk r).
Proof.
  unfold PostsListView_get_queryset.
  rewrite elem_of_annotate_comment_count, list_elem_of_filter,
    elem_of_ListView_get_queryset, published_filter_spec. simpl. tauto.
Qed.

Lemma ProfileListView_get_queryset_Return db now request username profile qs :
  ProfileListView_get_queryset db now request username = Return (profile, qs) →
  (∃ u, users db !! profile = Some u ∧ User.username u = username) ∧
  ∀ r, r ∈ qs ↔
    posts db !! row_pk r = Some (row_post r) ∧
    Post.author (row_post r) = profile ∧
    (user_eq profile (user request) = true ∨
     publicly_visible db now (row_post r)) ∧
    comment_count r = count_comments db (row_pk r).
Proof.
  unfold ProfileListView_get_queryset. intros Hq.
  destruct (get_object_or_404 (users db) _) as [[uid u]|] eqn:Hget;
    [|discriminate].
  apply get_object_or_404_Return in Hget as [Hu Hname%bool_decide_eq_true].
  simpl in *. injection Hq as <- <-. split; [eauto|]. intros r.
  destruct (user_eq uid (user request)); simpl;
    rewrite ?list_elem_of_filter, elem_of_annotate_comment_count,
      list_elem_of_filter, elem_of_ListView_get_queryset,
      ?published_filter_spec; simpl; intuition discriminate.
Qed.

Lemma PostsInCategoryListView_get_queryset_Return db now slug cat qs :
  PostsInCategoryListView_get_queryset db now slug = Return (cat, qs) →
  (∃ c, categories db !! cat = Some c ∧ Category.slug c = slug ∧
        Category.is_published c = true) ∧
  ∀ r, r ∈ qs ↔
    posts db !! row_pk r = Some (row_post r) ∧
    Post.category (row_post r) = cat ∧
    Post.is_published (row_post r) = true ∧
    Post.pub_date (row_post r) ≤ now ∧
    comment_count r = count_comments db (row_pk r).
Proof.
  unfold PostsInCategoryListView_get_queryset. intros Hq.
  destruct (get_object_or_404 (categories db) _) as [[cid c]|] eqn:Hget;
    [|discriminate].
  apply get_object_or_404_Return in Hget as [Hc Hl]. simpl in *.
  apply andb_true_iff in Hl as [Hslug%bool_decide_eq_true Hpub].
  injection Hq as <- <-. split; [eauto|]. intros r.
  rewrite elem_of_annotate_comment_count, list_elem_of_filter,
    elem_of_ListView_get_queryset, !andb_true_iff, !bool_decide_eq_true.
  simpl. tauto.
Qed.




(** ** Pagination *)

Lemma num_pages_pos count : (1 ≤ num_pages count)%nat.
Proof.
  unfold num_pages, paginate_by.
  apply (Nat.div_le_lower_bound _ 10 1); lia.
Qed.

Lemma Paginator_page_Return {A} (qs pg : list A) number :
  Paginator_page qs number = Return pg →
  ∃ n : nat, (1 ≤ n ≤ num_pages (length qs))%nat ∧ number = Z.of_nat n ∧
    pg = take paginate_by (drop ((n - 1) * paginate_by) qs).
Proof.
  unfold Paginator_page, validate_number. intros Hp.
  pose proof (num_pages_pos (length qs)) as Hpos.
  repeat case_bool_decide; simpl in Hp; try discriminate; [lia|].
  injection Hp as <-. exists (Z.to_nat number).
  split; [lia|]. split; [lia|].
  case_bool_decide as Hlast.
  - rewrite !take_ge; [done| |]; rewrite length_drop; lia.
  - f_equal. lia.
Qed.



(** ** Which posts a listing includes *)

(** C1, as stated, fails on the index: the author of an unpublished post
    does not find it there. *)
Lemma index_omits_own_unpublished_post :
  ¬ (listed 3 post3 (PostsListView_get_queryset example_db 10) ↔
     publicly_visible example_db 10 post3 ∨
     user_eq (Post.author post3) (AuthenticatedUser 2 bob) = true).
Proof.
  intros [_ Hin]. destruct Hin as [n Hn]; [by right|].
  apply elem_of_PostsListView_get_queryset in Hn as (_ & (Hpub & _) & _).
  discriminate.
Qed.

(** C1, amended: the index lists a stored post exactly when it is publicly
    visible; the category listing, exactly when it is publicly visible and
    in the requested category; the profile listing, exactly when it is by
    the profile's owner and is publicly visible or the requester is its
    author.  Only the profile listing makes the exception for the
    author. *)
Theorem listing_inclusion db now request id p :
  (listed id p (PostsListView_get_queryset db now) ↔
     posts db !! id = Some p ∧ publicly_visible db now p) ∧
  (∀ username profile qs,
     ProfileListView_get_queryset db now request username
       = Return (profile, qs) →
     (listed id p qs ↔
        posts db !! id = Some p ∧ Post.author p = profile ∧
        (publicly_visible db now p ∨
         user_eq (Post.author p) (user request) = true))) ∧
  (∀ category_slug cat qs,
     PostsInCategoryListView_get_queryset db now category_slug
       = Return (cat, qs) →
     (listed id p qs ↔
        posts db !! id = Some p ∧ Post.category p = cat ∧
        publicly_visible db now p)).
Proof.
  split; [|split].
  - unfold listed. split.
    + intros [n Hn]. apply elem_of_PostsListView_get_queryset in Hn.
      simpl in Hn. tauto.
    + intros [Hp Hv]. exists (count_comments db id).
      by apply elem_of_PostsListView_get_queryset.
  - intros username profile qs [_ Hqs]%ProfileListView_get_queryset_Return.
    unfold listed. split.
    + intros [n Hn]. apply Hqs in Hn. simpl in Hn.
      destruct Hn as (? & <- & ? & ?). tauto.
    + intros (Hp & <- & Hv). exists (count_comments db id).
      apply Hqs. simpl. tauto.
  - intros slug cat qs
      [(c & Hc & _ & Hpub) Hqs]%PostsInCategoryListView_get_queryset_Return.
    unfold listed, publicly_visible. split.
    + intros [n Hn]. apply Hqs in Hn. simpl in Hn.
      destruct Hn as (? & Hcat & ? & ? & ?). rewrite Hcat. eauto 10.
    + intros (Hp & Hcat & ? & ? & _). exists (count_comments db id).
      apply Hqs. simpl. tauto.
Qed.

Lemma listing_inclusion_witness :
  ∃ qs, ProfileListView_get_queryset example_db 10
          (request_of (AuthenticatedUser 1 alice) GET) "alice"
          = Return (1%nat, qs) ∧
        listed 2 post2 qs.
Proof.
  eexists. split; [vm_compute; reflexivity|].
  destruct (listing_inclusion example_db 10
              (request_of (AuthenticatedUser 1 alice) GET) 2%nat post2)
    as (_ & Hprofile & _).
  eapply (Hprofile "alice" 1%nat); [vm_compute; reflexivity|].
  split; [reflexivity|]. split; [reflexivity|]. right. reflexivity.
Defined.

(** ** The post page *)

Lemma PostDetailView_get_object_unfold db request id :
  PostDetailView_get_object db request id =
  match posts db !! id with
  | Some p =>
      if Post.is_published p || user_eq (Post.author p) (user request)
      then Return p else Raise Http404
  | None => Raise Http404
  end.
Proof.
  unfold PostDetailView_get_object, get_by_pk.
  destruct (posts db !! id) as [p|]; simpl; [|done].
  by destruct (Post.is_published p || _).
Qed.

(** The author always gets the post. *)
Lemma PostDetailView_author db request id p :
  posts db !! id = Some p →
  user_eq (Post.author p) (user request) = true →
  PostDetailView db request id =
  Return (TemplateResponse "blog/detail.html"
            (detail_context id p (post_comments_of db id))).
Proof.
  intros Hp Hu. unfold PostDetailView.
  rewrite PostDetailView_get_object_unfold, Hp, Hu, orb_true_r. done.
Qed.

(** Anyone else gets it exactly when its own [is_published] flag is set:
    neither the publication date nor the category is looked at. *)
Lemma PostDetailView_other db request id p :
  posts db !! id = Some p →
  user_eq (Post.author p) (user request) = false →
  get_response (PostDetailView db request id) =
  if Post.is_published p
  then TemplateResponse "blog/detail.html"
         (detail_context id p (post_comments_of db id))
  else HttpResponseNotFound.
Proof.
  intros Hp Hu. unfold PostDetailView.
  rewrite PostDetailView_get_object_unfold, Hp, Hu, orb_false_r.
  by destruct (Post.is_published p).
Qed.

(** C2 fails on the code: a post dated after the request, and a post in
    an unpublished category, are served to an anonymous visitor although
    neither is publicly visible. *)
Theorem post_detail_serves_hidden_posts :
  (posts example_db !! 2%nat = Some post2 ∧
   ¬ publicly_visible example_db 10 post2 ∧
   get_response (PostDetailView example_db (request_of AnonymousUser GET) 2)
   = TemplateResponse "blog/detail.html" (detail_context 2 post2 [])) ∧
  (posts example_db !! 4%nat = Some post4 ∧
   ¬ publicly_visible example_db 10 post4 ∧
   get_response (PostDetailView example_db (request_of AnonymousUser GET) 4)
   = TemplateResponse "blog/detail.html" (detail_context 4 post4 [])).
Proof.
  split; (split; [reflexivity|]); (split; [|vm_compute; reflexivity]).
  - intros (_ & Hdate & _). simpl in Hdate. lia.
  - intros (_ & _ & c & Hc & Hpub). vm_compute in Hc.
    injection Hc as <-. discriminate.
Qed.

(** ** Ownership guards *)

Lemma refusal_cases u :
  get_response (handle_no_permission u) = refusal u ∧
  (refusal u = HttpResponseForbidden ∨
   refusal u = HttpResponseRedirect login_url).
Proof. destruct u; simpl; auto. Qed.

Lemma UserPassesTestMixin_dispatch_refused test_func request super db :
  test_func db = Return false →
  handle (UserPassesTestMixin_dispatch test_func request super) db
  = (refusal (user request), db).
Proof.
  intros Htest.
  unfold handle, UserPassesTestMixin_dispatch, mbind, View_bind, get_db, lift.
  rewrite Htest. simpl. by destruct (user request).
Qed.

Lemma OnlyAuthorMixin_test_func_Some `{Authored V} (table : gmap pk V)
    id request object :
  table !! id = Some object →
  OnlyAuthorMixin_test_func table id request
  = Return (user_eq (author_of object) (user request)).
Proof. intros Hobj. unfold OnlyAuthorMixin_test_func, get_by_pk. by rewrite Hobj. Qed.

(** C3, as stated, fails for deletion: another user who asks to delete
    a post is refused with a 403, not redirected to the post. *)
Lemma post_delete_by_other_user_not_redirected :
  posts example_db !! 1%nat = Some post1 ∧
  user_eq (Post.author post1) (AuthenticatedUser 2 bob) = false ∧
  ¬ (handle (PostDeleteView (request_of (AuthenticatedUser 2 bob) POST) 1)
            example_db
     = (HttpResponseRedirect (blog_post_detail 1), example_db)).
Proof.
  split; [reflexivity|]. split; [reflexivity|].
  intros Heq. apply (f_equal fst) in Heq. vm_compute in Heq. discriminate.
Qed.

Section Guards.

Variable PostForm : DB → QueryDict → option Post.t → option Post.t.
Variable CommentForm : DB → QueryDict → option Comment.t → option Comment.t.

(** C3, amended: a request to edit a post by anyone but its author is
    answered with a redirect to the post's page; a request to delete it
    is refused by the access mixin (403 for an authenticated requester,
    the login page for an anonymous one); the store is unchanged in both
    cases. *)
Theorem post_non_author_turned_away db request id p :
  posts db !! id = Some p →
  user_eq (Post.author p) (user request) = false →
  handle (PostUpdateView PostForm request id) db
    = (HttpResponseRedirect (blog_post_detail id), db) ∧
  handle (PostDeleteView request id) db = (refusal (user request), db) ∧
  (refusal (user request) = HttpResponseForbidden ∨
   refusal (user request) = HttpResponseRedirect login_url).
Proof.
  intros Hp Hu. split; [|split].
  - unfold handle, PostUpdateView, mbind, View_bind, get_db, lift, get_by_pk.
    rewrite Hp. simpl. rewrite Hu. reflexivity.
  - apply UserPassesTestMixin_dispatch_refused.
    rewrite (OnlyAuthorMixin_test_func_Some _ _ _ _ Hp). by rewrite <- Hu.
  - apply refusal_cases.
Qed.

(** C4: a request to edit or delete a comment by anyone but its author
    is denied (403 for an authenticated requester, the login page for an
    anonymous one) and the store is unchanged. *)
Theorem comment_non_author_denied db request comment_id c :
  comments db !! comment_id = Some c →
  user_eq (Comment.author c) (user request) = false →
  handle (CommentUpdateView CommentForm request comment_id) db
    = (refusal (user request), db) ∧
  handle (CommentDeleteView request comment_id) db
    = (refusal (user request), db) ∧
  (refusal (user request) = HttpResponseForbidden ∨
   refusal (user request) = HttpResponseRedirect login_url).
Proof.
  intros Hc Hu. split; [|split].
  - apply UserPassesTestMixin_dispatch_refused.
    rewrite (OnlyAuthorMixin_test_func_Some _ _ _ _ Hc). by rewrite <- Hu.
  - apply UserPassesTestMixin_dispatch_refused.
    rewrite (OnlyAuthorMixin_test_func_Some _ _ _ _ Hc). by rewrite <- Hu.
  - apply refusal_cases.
Qed.

End Guards.

Lemma post_non_author_turned_away_witness :
  handle (PostUpdateView example_PostForm
            (request_of (AuthenticatedUser 2 bob) POST) 1) example_db
    = (HttpResponseRedirect (blog_post_detail 1), example_db) ∧
  handle (PostDeleteView (request_of AnonymousUser POST) 1) example_db
    = (HttpResponseRedirect login_url, example_db).
Proof.
  split.
  - apply (post_non_author_turned_away example_PostForm example_db
             (request_of (AuthenticatedUser 2 bob) POST) 1%nat post1);
      reflexivity.
  - apply (post_non_author_turned_away example_PostForm example_db
             (request_of AnonymousUser POST) 1%nat post1); reflexivity.
Defined.

Lemma comment_non_author_denied_witness :
  handle (CommentUpdateView example_CommentForm
            (request_of (AuthenticatedUser 1 alice) POST) 1) example_db
    = (HttpResponseForbidden, example_db) ∧
  handle (CommentDeleteView (request_of AnonymousUser POST) 1) example_db
    = (HttpResponseRedirect login_url, example_db).
Proof.
  split.
  - apply (comment_non_author_denied example_CommentForm example_db
             (request_of (AuthenticatedUser 1 alice) POST) 1%nat comment1);
      reflexivity.
  - apply (comment_non_author_denied example_CommentForm example_db
             (request_of AnonymousUser POST) 1%nat comment1); reflexivity.
Defined.

(** ** The profile page *)

(** C5: the profile is looked up by user name, and the answer is "not
    found" when no user bears it; when the name belongs to one user, the
    listing holds all of that user's posts if the requester is that
    user, and only the publicly visible ones otherwise; the page shown
    is cut from that listing. *)
Theorem profile_listing db now request username :
  ((∀ id u, users db !! id = Some u → User.username u ≠ username) →
   get_response (ProfileListView db now request username)
   = HttpResponseNotFound) ∧
  (∀ profile u,
     users db !! profile = Some u → User.username u = username →
     (∀ id' u', users db !! id' = Some u' → User.username u' = username →
                id' = profile) →
     ∃ qs,
       ProfileListView_get_queryset db now request username
         = Return (profile, qs) ∧
       ProfileListView db now request username
         = (page ← paginate_queryset qs (GET_page request);
            Return (TemplateResponse "blog/profile.html"
                      (profile_context profile page))) ∧
       (user_eq profile (user request) = true →
        ∀ id p, listed id p qs ↔
                posts db !! id = Some p ∧ Post.author p = profile) ∧
       (user_eq profile (user request) = false →
        ∀ id p, listed id p qs ↔
                posts db !! id = Some p ∧ Post.author p = profile ∧
                publicly_visible db now p)).
Proof.
  split.
  - intros Hnone. unfold ProfileListView, ProfileListView_get_queryset.
    rewrite get_object_or_404_not_found; [done|].
    intros id u Hu. apply bool_decide_eq_false. eauto.
  - intros profile u Hu Hname Huniq.
    assert (get_object_or_404 (users db)
              (λ _ u, bool_decide (User.username u = username))
            = Return (profile, u)) as Hget.
    { apply get_object_or_404_unique; [done|by apply bool_decide_eq_true|].
      intros id' u' Hu' Hn%bool_decide_eq_true. eauto. }
    destruct (ProfileListView_get_queryset db now request username)
      as [[profile' qs]|e] eqn:Hq;
      unfold ProfileListView_get_queryset in Hq; rewrite Hget in Hq;
      simpl in Hq; [|discriminate].
    assert (profile' = profile) as -> by congruence.
    exists qs. split; [done|].
    assert (ProfileListView_get_queryset db now request username
            = Return (profile, qs)) as Hq'
      by (unfold ProfileListView_get_queryset; by rewrite Hget).
    split; [unfold ProfileListView; by rewrite Hq'|].
    apply ProfileListView_get_queryset_Return in Hq' as [_ Hqs].
    unfold listed. split; intros Heq id p; split.
    + intros [n Hn]. apply Hqs in Hn. simpl in Hn. tauto.
    + intros [Hp Ha]. exists (count_comments db id). apply Hqs. simpl. tauto.
    + intros [n Hn]. apply Hqs in Hn. simpl in Hn. rewrite Heq in Hn.
      intuition discriminate.
    + intros (Hp & Ha & Hv). exists (count_comments db id).
      apply Hqs. simpl. tauto.
Qed.

Lemma profile_listing_witness :
  ∃ qs,
    ProfileListView_get_queryset example_db 10
      (request_of (AuthenticatedUser 1 alice) GET) "alice"
      = Return (1%nat, qs) ∧
    listed 2 post2 qs ∧
    get_response (ProfileListView example_db 10
                    (request_of AnonymousUser GET) "carol")
    = HttpResponseNotFound.
Proof.
  destruct (profile_listing example_db 10
              (request_of (AuthenticatedUser 1 alice) GET) "alice")
    as [_ Hfound].
  destruct (Hfound 1%nat alice) as (qs & Hq & _ & Hown & _);
    [reflexivity|reflexivity| |].
  { intros id' u' Hu' Hname.
    change (users example_db) with
      (<[1%nat := alice]> (<[2%nat := bob]> (∅ : gmap nat User.t))) in Hu'.
    destruct (decide (id' = 1%nat)) as [->|]; [done|].
    rewrite lookup_insert_ne in Hu' by done.
    destruct (decide (id' = 2%nat)) as [->|].
    - rewrite lookup_insert_eq in Hu'. injection Hu' as <-. discriminate.
    - rewrite lookup_insert_ne, lookup_empty in Hu' by done. discriminate. }
  exists qs. split; [exact Hq|]. split.
  - apply Hown; [reflexivity|]. split; reflexivity.
  - apply (profile_listing example_db 10 (request_of AnonymousUser GET) "carol").
    intros id u Hu Hname.
    change (users example_db) with
      (<[1%nat := alice]> (<[2%nat := bob]> (∅ : gmap nat User.t))) in Hu.
    destruct (decide (id = 1%nat)) as [->|].
    { rewrite lookup_insert_eq in Hu. injection Hu as <-. discriminate. }
    rewrite lookup_insert_ne in Hu by done.
    destruct (decide (id = 2%nat)) as [->|].
    + rewrite lookup_insert_eq in Hu. injection Hu as <-. discriminate.
    + rewrite lookup_insert_ne, lookup_empty in Hu by done. discriminate.
Defined.

(** ** Comment counts, order and pages *)





(** ** The category page *)

Lemma PostsInCategoryListView_not_found db now request category_slug :
  (∀ cid c, categories db !! cid = Some c →
            Category.slug c = category_slug →
            Category.is_published c = false) →
  PostsInCategoryListView db now request category_slug = Raise Http404.
Proof.
  intros Hnone.
  unfold PostsInCategoryListView, PostsInCategoryListView_get_queryset.
  rewrite get_object_or_404_not_found; [done|].
  intros cid c Hc. apply andb_false_iff.
  destruct (decide (Category.slug c = category_slug)) as [Hs|Hs].
  - right. eauto.
  - left. by apply bool_decide_eq_false.
Qed.

(** C9: when the slug names a category that is stored but not published,
    the category page answers "not found", as it does for a slug that no
    category bears. *)
Theorem unpublished_category_not_found db db' now request category_slug cid c :
  categories db !! cid = Some c →
  Category.slug c = category_slug →
  Category.is_published c = false →
  (∀ cid' c', categories db !! cid' = Some c' →
              Category.slug c' = category_slug → cid' = cid) →
  (∀ cid' c', categories db' !! cid' = Some c' →
              Category.slug c' ≠ category_slug) →
  get_response (PostsInCategoryListView db now request category_slug)
    = HttpResponseNotFound ∧
  get_response (PostsInCategoryListView db' now request category_slug)
    = HttpResponseNotFound.
Proof.
  intros Hc Hslug Hpub Huniq Hnone. split.
  - rewrite PostsInCategoryListView_not_found; [done|].
    intros cid' c' Hc' Hslug'. pose proof (Huniq _ _ Hc' Hslug') as ->.
    congruence.
  - rewrite PostsInCategoryListView_not_found; [done|].
    intros cid' c' Hc' Hslug'. by destruct (Hnone _ _ Hc').
Qed.

Lemma unpublished_category_not_found_witness :
  get_response (PostsInCategoryListView example_db 10
                  (request_of AnonymousUser GET) "drafts")
    = HttpResponseNotFound ∧
  get_response (PostsInCategoryListView (mkDB ∅ ∅ ∅ ∅) 10
                  (request_of AnonymousUser GET) "drafts")
    = HttpResponseNotFound.
Proof.
  apply (unpublished_category_not_found example_db (mkDB ∅ ∅ ∅ ∅) 10
           (request_of AnonymousUser GET) "drafts" 2%nat
           (Category.mk "drafts" false)); try reflexivity.
  - intros cid' c' Hc' Hslug. unfold example_db in Hc'. simpl in Hc'.
    destruct (decide (cid' = 2%nat)) as [->|]; [done|].
    lookup_cases Hc'.
  - intros cid' c' Hc'. simpl in Hc'. lookup_cases Hc'.
Defined.

(** ** Creating posts and comments *)

Lemma next_pk_fresh {V} (table : gmap pk V) : table !! next_pk table = None.
Proof.
  apply not_elem_of_dom. intros Hin%elem_of_elements%max_list_elem_of_le.
  unfold next_pk in Hin. lia.
Qed.

Section Creation.

Variable PostForm : DB → QueryDict → option Post.t → option Post.t.
Variable CommentForm : DB → QueryDict → option Comment.t → option Comment.t.

(** C7: when a request to comment on post [id] succeeds, that is, is
    answered with the redirect back to the post, the store has gained
    exactly one comment, whose post is [id], a stored post, and whose
    author is the authenticated requester. *)
Theorem comment_creation_references request id db db' :
  CommentCreateView CommentForm request id db
    = (Return (HttpResponseRedirect (blog_post_detail id)), db') →
  ∃ uid row p c,
    user request = AuthenticatedUser uid row ∧
    posts db !! id = Some p ∧
    comments db !! next_pk (comments db) = None ∧
    db' = with_comments (<[next_pk (comments db) := c]> (comments db)) db ∧
    Comment.post c = id ∧
    Comment.author c = uid.
Proof.
  unfold CommentCreateView, mbind, View_bind, get_db, lift, get_by_pk,
    Comment_create.
  destruct (user request) as [|uid row]; simpl; [discriminate|].
  destruct (method request); simpl; [discriminate|].
  destruct (CommentForm db _ None) as [instance|]; simpl; [|discriminate].
  destruct (posts db !! id) as [p|] eqn:Hp; simpl; [|discriminate].
  intros [= <-]. eexists uid, row, p, _.
  split; [done|]. split; [done|]. split; [apply next_pk_fresh|].
  split; [reflexivity|]. done.
Qed.

(** C8: when a request to create a post succeeds, that is, is answered
    with the redirect to the author's profile, the store has gained
    exactly one post, the one the form built from the submitted data but
    with the authenticated requester as its author, whatever author the
    form had written to it. *)
Theorem post_creation_author request name db db' :
  PostCreateView PostForm request db
    = (Return (HttpResponseRedirect (blog_profile name)), db') →
  ∃ uid row instance,
    user request = AuthenticatedUser uid row ∧
    name = User.username row ∧
    PostForm db (POST_data request) None = Some instance ∧
    posts db !! next_pk (posts db) = None ∧
    db' = with_posts (<[next_pk (posts db) := Post.set_author uid instance]>
                        (posts db)) db ∧
    Post.author (Post.set_author uid instance) = uid.
Proof.
  unfold PostCreateView, mbind, View_bind, get_db, lift, Post_create.
  destruct (user request) as [|uid row]; simpl; [discriminate|].
  destruct (method request); simpl; [discriminate|].
  destruct (PostForm db _ None) as [instance|] eqn:Hform; simpl;
    [|discriminate].
  intros [= <- <-]. exists uid, row, instance.
  split; [done|]. split; [done|]. split; [done|].
  split; [apply next_pk_fresh|]. done.
Qed.

(** C10: for an authenticated user posting data the comment form
    accepts, the only thing asked of the target is that a post is stored
    under [id]: if so the comment is created, whatever the post's
    [is_published] flag, publication date, category and author; if not,
    the answer is "not found" and nothing is stored. *)
Theorem comment_creation_needs_only_post request uid row instance id db :
  user request = AuthenticatedUser uid row →
  method request = POST →
  CommentForm db (POST_data request) None = Some instance →
  (∀ p, posts db !! id = Some p →
     handle (CommentCreateView CommentForm request id) db
     = (HttpResponseRedirect (blog_post_detail id),
        with_comments
          (<[next_pk (comments db) := Comment.mk (Comment.text instance) id uid]>
             (comments db)) db)) ∧
  (posts db !! id = None →
     handle (CommentCreateView CommentForm request id) db
     = (HttpResponseNotFound, db)).
Proof.
  intros Hu Hm Hform.
  unfold handle, CommentCreateView, mbind, View_bind, get_db, lift, get_by_pk,
    Comment_create.
  rewrite Hu, Hm. simpl. rewrite Hform. simpl.
  split; [intros p Hp|intros Hp]; rewrite Hp; reflexivity.
Qed.

End Creation.

Lemma comment_creation_references_witness :
  ∃ db' c,
    CommentCreateView example_CommentForm
      (request_of (AuthenticatedUser 2 bob) POST) 1 example_db
      = (Return (HttpResponseRedirect (blog_post_detail 1)), db') ∧
    db' = with_comments
            (<[next_pk (comments example_db) := c]> (comments example_db))
            example_db ∧
    Comment.post c = 1%nat ∧ Comment.author c = 2%nat.
Proof.
  destruct (comment_creation_references example_CommentForm
              (request_of (AuthenticatedUser 2 bob) POST) 1%nat example_db
              _ eq_refl)
    as (uid & row & p & c & Hu & _ & _ & Hdb & Hpost & Hauthor).
  injection Hu as <- <-.
  eexists _, c. split; [|split; [exact Hdb|done]].
  reflexivity.
Defined.

Lemma post_creation_author_witness :
  ∃ db' instance,
    PostCreateView example_PostForm
      (request_of (AuthenticatedUser 2 bob) POST) example_db
      = (Return (HttpResponseRedirect (blog_profile "bob")), db') ∧
    example_PostForm example_db
      (POST_data (request_of (AuthenticatedUser 2 bob) POST)) None
      = Some instance ∧
    Post.author instance = 1%nat ∧
    db' = with_posts
            (<[next_pk (posts example_db) := Post.set_author 2 instance]>
               (posts example_db)) example_db ∧
    Post.author (Post.set_author 2 instance) = 2%nat.
Proof.
  destruct (post_creation_author example_PostForm
              (request_of (AuthenticatedUser 2 bob) POST) "bob" example_db
              _ eq_refl)
    as (uid & row & instance & Hu & _ & Hform & _ & Hdb & Hauthor).
  injection Hu as <- <-.
  eexists _, instance.
  split; [|split; [exact Hform|split; [|split; [exact Hdb|exact Hauthor]]]].
  - vm_compute in Hform. injection Hform as <-. reflexivity.
  - vm_compute in Hform. injection Hform as <-. reflexivity.
Defined.

Lemma comment_creation_needs_only_post_witness :
  posts example_db !! 3%nat = Some post3 ∧
  ¬ publicly_visible example_db 10 post3 ∧
  user_eq (Post.author post3) (AuthenticatedUser 1 alice) = false ∧
  handle (CommentCreateView example_CommentForm
            (request_of (AuthenticatedUser 1 alice) POST) 3) example_db
  = (HttpResponseRedirect (blog_post_detail 3),
     with_comments (<[2%nat := Comment.mk "hello" 3 1]> (comments example_db))
                   example_db) ∧
  handle (CommentCreateView example_CommentForm
            (request_of (AuthenticatedUser 1 alice) POST) 9) example_db
  = (HttpResponseNotFound, example_db).
Proof.
  split; [reflexivity|]. split; [intros [Hpub _]; discriminate Hpub|].
  split; [reflexivity|].
  destruct (comment_creation_needs_only_post example_CommentForm
              (request_of (AuthenticatedUser 1 alice) POST) 1%nat alice
              (Comment.mk "hello" 0 0) 3%nat example_db
              eq_refl eq_refl eq_refl) as [Hsome _].
  destruct (comment_creation_needs_only_post example_CommentForm
              (request_of (AuthenticatedUser 1 alice) POST) 1%nat alice
              (Comment.mk "hello" 0 0) 9%nat example_db
              eq_refl eq_refl eq_refl) as [_ Hnone].
  split; [exact (Hsome post3 eq_refl)|exact (Hnone eq_refl)].
Defined.


(** * Further properties of the views *)

(** ** The post page and the listings *)

Lemma PostDetailView_visible db request id p :
  posts db !! id = Some p →
  Post.is_published p = true ∨ user_eq (Post.author p) (user request) = true →
  PostDetailView db request id =
  Return (TemplateResponse "blog/detail.html"
            (detail_context id p (post_comments_of db id))).
Proof.
  intros Hp Hvis. unfold PostDetailView.
  rewrite PostDetailView_get_object_unfold, Hp.
  by destruct Hvis as [-> | ->]; rewrite ?orb_true_r.
Qed.

(** X1: the post page answers "not found" exactly when no post is stored
    under the key, or the post is unpublished and the requester is not
    its author; in every other case, that is for a stored post that is
    published or whose author is asking, the page is served with that
    post and its comments. *)
Theorem post_detail_not_found_iff db request id :
  (get_response (PostDetailView db request id) = HttpResponseNotFound ↔
   posts db !! id = None ∨
   ∃ p, posts db !! id = Some p ∧ Post.is_published p = false ∧
        user_eq (Post.author p) (user request) = false) ∧
  (∀ p, posts db !! id = Some p →
        Post.is_published p = true ∨
        user_eq (Post.author p) (user request) = true →
        get_response (PostDetailView db request id)
        = TemplateResponse "blog/detail.html"
            (detail_context id p (post_comments_of db id))).
Proof.
  split.
  - unfold PostDetailView. rewrite PostDetailView_get_object_unfold.
    destruct (posts db !! id) as [p|]; simpl.
    + split.
      * intros Hresp. right. exists p.
        destruct (Post.is_published p),
          (user_eq (Post.author p) (user request));
          simpl in Hresp; try discriminate; done.
      * intros [?|(p' & [= <-] & -> & ->)]; [discriminate|done].
    + split; [by left|done].
  - intros p Hp Hvis. by rewrite (PostDetailView_visible _ _ _ _ Hp Hvis).
Qed.

(** X2: whatever post one of the three listings shows to a requester, the
    post page serves to the same requester. *)
Theorem listed_posts_open db now request id p :
  listed id p (PostsListView_get_queryset db now) ∨
  (∃ username profile qs,
     ProfileListView_get_queryset db now request username
       = Return (profile, qs) ∧ listed id p qs) ∨
  (∃ category_slug cat qs,
     PostsInCategoryListView_get_queryset db now category_slug
       = Return (cat, qs) ∧ listed id p qs) →
  PostDetailView db request id =
  Return (TemplateResponse "blog/detail.html"
            (detail_context id p (post_comments_of db id))).
Proof.
  unfold listed.
  intros [[n Hn]|[(username & profile & qs & Hq & n & Hn)
                 |(slug & cat & qs & Hq & n & Hn)]].
  - apply elem_of_PostsListView_get_queryset in Hn as (Hp & (Hpub & _) & _).
    apply PostDetailView_visible; auto.
  - apply ProfileListView_get_queryset_Return in Hq as [_ Hqs].
    apply Hqs in Hn as (Hp & Ha & Hvis & _). simpl in *.
    apply PostDetailView_visible; [done|].
    destruct Hvis as [Hu|(Hpub & _)]; [right; by rewrite Ha|by left].
  - apply PostsInCategoryListView_get_queryset_Return in Hq as [_ Hqs].
    apply Hqs in Hn as (Hp & _ & Hpub & _). simpl in *.
    apply PostDetailView_visible; auto.
Qed.

Lemma listed_posts_open_witness :
  PostDetailView example_db (request_of (AuthenticatedUser 1 alice) GET) 2
  = Return (TemplateResponse "blog/detail.html"
              (detail_context 2 post2 (post_comments_of example_db 2))).
Proof.
  apply (listed_posts_open example_db 10).
  right. left. exists "alice", 1%nat. eexists.
  split; [vm_compute; reflexivity|].
  exists 0%nat. vm_compute. left.
Defined.

Lemma elem_of_post_comments_of db id cid c :
  (cid, c) ∈ post_comments_of db id ↔
  comments db !! cid = Some c ∧ Comment.post c = id.
Proof.
  unfold post_comments_of.
  rewrite list_elem_of_filter, elem_of_objects_all. simpl. tauto.
Qed.

(** X3: when the post page is served, its context holds the stored post
    and exactly the stored comments on it, each once; their number is
    the [comment_count] the listings attach to the post. *)
Theorem post_detail_comments db request id resp :
  PostDetailView db request id = Return resp →
  ∃ p cs,
    resp = TemplateResponse "blog/detail.html" (detail_context id p cs) ∧
    posts db !! id = Some p ∧
    (∀ cid c, (cid, c) ∈ cs ↔
              comments db !! cid = Some c ∧ Comment.post c = id) ∧
    NoDup cs ∧
    length cs = count_comments db id.
Proof.
  unfold PostDetailView. rewrite PostDetailView_get_object_unfold.
  destruct (posts db !! id) as [p|] eqn:Hp; [|discriminate].
  destruct (_ || _); [|discriminate]. simpl. intros [= <-].
  exists p, (post_comments_of db id).
  split; [done|]. split; [done|].
  split; [intros cid c; apply elem_of_post_comments_of|].
  split; [apply NoDup_filter, NoDup_map_to_list|done].
Qed.

Lemma post_detail_comments_witness :
  ∃ p cs,
    get_response (PostDetailView example_db (request_of AnonymousUser GET) 1)
    = TemplateResponse "blog/detail.html" (detail_context 1 p cs) ∧
    length cs = 1%nat.
Proof.
  destruct (post_detail_comments example_db (request_of AnonymousUser GET)
              1%nat _ eq_refl) as (p & cs & Hresp & _ & _ & _ & Hlen).
  exists p, cs. split; [|exact Hlen].
  rewrite <- Hresp. reflexivity.
Defined.

(** ** How the listings relate *)

Lemma row_pk_annotate_comment_count db (qs : list (pk * Post.t)) :
  row_pk <$> annotate_comment_count db qs = qs.*1.
Proof.
  unfold annotate_comment_count. rewrite <- list_fmap_compose.
  by apply list_fmap_ext.
Qed.

Lemma ListView_get_queryset_NoDup db : NoDup (ListView_get_queryset db).*1.
Proof.
  unfold ListView_get_queryset, order_by_pub_date_desc, objects_all.
  rewrite merge_sort_Permutation. apply NoDup_fst_map_to_list.
Qed.

Lemma annotate_filter_NoDup db (P : pk * Post.t → Prop)
    `{∀ x, Decision (P x)} :
  NoDup (row_pk <$> annotate_comment_count db
                      (filter P (ListView_get_queryset db))).
Proof.
  rewrite row_pk_annotate_comment_count.
  eapply sublist_NoDup; [apply ListView_get_queryset_NoDup|].
  apply fmap_sublist, sublist_filter.
Qed.

(** X4: no listing shows a post twice: the keys of the rows of the
    index, profile and category query sets are pairwise distinct. *)
Theorem listings_without_duplicates db now request :
  NoDup (row_pk <$> PostsListView_get_queryset db now) ∧
  (∀ username profile qs,
     ProfileListView_get_queryset db now request username
       = Return (profile, qs) →
     NoDup (row_pk <$> qs)) ∧
  (∀ category_slug cat qs,
     PostsInCategoryListView_get_queryset db now category_slug
       = Return (cat, qs) →
     NoDup (row_pk <$> qs)).
Proof.
  split; [apply annotate_filter_NoDup|]. split.
  - intros username profile qs. unfold ProfileListView_get_queryset.
    destruct (get_object_or_404 (users db) _) as [[uid u]|]; [|discriminate].
    simpl. intros [= <- <-].
    destruct (negb _); [|apply annotate_filter_NoDup].
    eapply sublist_NoDup; [|apply fmap_sublist, sublist_filter].
    apply annotate_filter_NoDup.
  - intros slug cat qs. unfold PostsInCategoryListView_get_queryset.
    destruct (get_object_or_404 (categories db) _) as [[cid c]|];
      [|discriminate].
    simpl. intros [= <- <-]. apply annotate_filter_NoDup.
Qed.

Lemma listings_without_duplicates_witness :
  ∃ qs,
    ProfileListView_get_queryset example_db 10
      (request_of (AuthenticatedUser 1 alice) GET) "alice"
      = Return (1%nat, qs) ∧
    NoDup (row_pk <$> qs) ∧ length qs = 2%nat.
Proof.
  eexists. split; [vm_compute; reflexivity|]. split; [|reflexivity].
  destruct (listings_without_duplicates example_db 10
              (request_of (AuthenticatedUser 1 alice) GET))
    as (_ & Hprofile & _).
  apply (Hprofile "alice" 1%nat). vm_compute. reflexivity.
Defined.

(** X5: the index holds every row of every category listing, and every
    row a profile listing shows to someone other than the profile's
    owner. *)
Theorem listings_within_index db now request r :
  (∀ category_slug cat qs,
     PostsInCategoryListView_get_queryset db now category_slug
       = Return (cat, qs) →
     r ∈ qs → r ∈ PostsListView_get_queryset db now) ∧
  (∀ username profile qs,
     ProfileListView_get_queryset db now request username
       = Return (profile, qs) →
     user_eq profile (user request) = false →
     r ∈ qs → r ∈ PostsListView_get_queryset db now).
Proof.
  split.
  - intros slug cat qs
      [(c & Hc & _ & Hcpub) Hqs]%PostsInCategoryListView_get_queryset_Return
      (Hp & Hcat & Hpub & Hdate & Hcount)%Hqs.
    apply elem_of_PostsListView_get_queryset.
    split; [done|]. split; [|done].
    split; [done|]. split; [done|]. exists c. by rewrite Hcat.
  - intros username profile qs
      [_ Hqs]%ProfileListView_get_queryset_Return Hother
      (Hp & _ & Hvis & Hcount)%Hqs.
    apply elem_of_PostsListView_get_queryset.
    rewrite Hother in Hvis. intuition discriminate.
Qed.

Lemma listings_within_index_witness :
  mkRow 1 post1 1 ∈ PostsListView_get_queryset example_db 10.
Proof.
  destruct (listings_within_index example_db 10
              (request_of AnonymousUser GET) (mkRow 1 post1 1))
    as [Hcat _].
  eapply (Hcat "news" 1%nat); [vm_compute; reflexivity|]. left.
Defined.

(** X6: what a profile shows to another requester is a sublist, in the
    same order, of what it shows to its owner. *)
Theorem profile_public_rows_within_own db now owner other username
    profile profile' qs_own qs_pub :
  ProfileListView_get_queryset db now owner username
    = Return (profile, qs_own) →
  user_eq profile (user owner) = true →
  ProfileListView_get_queryset db now other username
    = Return (profile', qs_pub) →
  profile' = profile ∧ qs_pub `sublist_of` qs_own.
Proof.
  unfold ProfileListView_get_queryset.
  destruct (get_object_or_404 (users db) _) as [[uid u]|]; [|discriminate].
  simpl. intros [= <- <-] -> [= <- <-]. split; [done|]. simpl.
  destruct (negb _); [apply sublist_filter|done].
Qed.

Lemma profile_public_rows_within_own_witness :
  ∃ qs_own qs_pub,
    ProfileListView_get_queryset example_db 10
      (request_of (AuthenticatedUser 1 alice) GET) "alice"
      = Return (1%nat, qs_own) ∧
    ProfileListView_get_queryset example_db 10
      (request_of AnonymousUser GET) "alice" = Return (1%nat, qs_pub) ∧
    qs_pub `sublist_of` qs_own ∧
    length qs_own = 2%nat ∧ length qs_pub = 1%nat.
Proof.
  eexists _, _. split; [vm_compute; reflexivity|].
  split; [vm_compute; reflexivity|]. split; [|split; reflexivity].
  eapply (profile_public_rows_within_own example_db 10
            (request_of (AuthenticatedUser 1 alice) GET)
            (request_of AnonymousUser GET) "alice" 1%nat 1%nat);
    [vm_compute; reflexivity|reflexivity|vm_compute; reflexivity].
Defined.

(** ** Pages *)

Lemma num_pages_bounds count :
  (count ≤ num_pages count * paginate_by ∧
   (num_pages count - 1) * paginate_by < Nat.max 1 count)%nat.
Proof.
  unfold num_pages, paginate_by.
  pose proof (Nat.div_mod_eq (Nat.max 1 count + 10 - 1) 10).
  pose proof (Nat.mod_upper_bound (Nat.max 1 count + 10 - 1) 10).
  lia.
Qed.

Lemma Paginator_page_valid {A} (qs : list A) (n : nat) :
  (1 ≤ n ≤ num_pages (length qs))%nat →
  Paginator_page qs (Z.of_nat n)
  = Return (take paginate_by (drop ((n - 1) * paginate_by) qs)).
Proof.
  intros Hn. unfold Paginator_page, validate_number.
  rewrite (bool_decide_eq_false_2 (_ < 1)) by lia.
  rewrite (bool_decide_eq_false_2 (_ < _)) by lia. simpl.
  rewrite Nat2Z.id. case_bool_decide; [|f_equal; f_equal; lia].
  rewrite !take_ge; [done|..]; rewrite length_drop; lia.
Qed.

Lemma concat_chunks {A} (l : list A) c k :
  concat ((λ i, take c (drop (i * c) l)) <$> seq 0 k) = take (k * c) l.
Proof.
  induction k as [|k IH]; [done|].
  rewrite seq_S, fmap_app, concat_app, IH. simpl.
  rewrite app_nil_r, take_take_drop. f_equal. lia.
Qed.

(** X7: the pages 1 to [num_pages] all exist, and laid end to end they
    are the query set: pagination loses, repeats and reorders nothing. *)
Theorem pages_partition_queryset {A} (qs : list A) :
  ∃ pgs : list (list A),
    Forall2 (λ n pg, paginate_queryset qs (page_number (Z.of_nat n))
                     = Return pg)
            (seq 1 (num_pages (length qs))) pgs ∧
    concat pgs = qs.
Proof.
  exists ((λ n, take paginate_by (drop ((n - 1) * paginate_by) qs))
            <$> seq 1 (num_pages (length qs))).
  split.
  - apply Forall2_fmap_r, Forall_Forall2_diag, Forall_forall.
    intros n Hn%elem_of_seq. simpl. apply Paginator_page_valid. lia.
  - rewrite <- fmap_S_seq, <- list_fmap_compose.
    rewrite (list_fmap_ext _ (λ i, take paginate_by (drop (i * paginate_by) qs)));
      [|intros i x _; simpl; do 2 f_equal; lia].
    rewrite concat_chunks. apply take_ge.
    pose proof (num_pages_bounds (length qs)). lia.
Qed.

(** X8: asking for a page fails exactly when the [page] parameter is
    neither a number nor [last], or is a number below 1 or above
    [num_pages]; the failure is always "not found". *)
Theorem page_not_found_iff {A} (qs : list A) page :
  (paginate_queryset qs page = Raise Http404 ↔
   page = page_garbage ∨
   ∃ n, page = page_number n ∧
        (n < 1 ∨ Z.of_nat (num_pages (length qs)) < n)) ∧
  (∀ e, paginate_queryset qs page = Raise e → e = Http404).
Proof.
  pose proof (num_pages_pos (length qs)) as Hpos.
  assert (∀ n e, Paginator_page qs n = Raise e →
            e = Http404 ∧ (n < 1 ∨ Z.of_nat (num_pages (length qs)) < n))
    as Hraise.
  { intros n e. unfold Paginator_page, validate_number.
    repeat case_bool_decide; simpl; intros [=]; subst; (split; [done|lia]). }
  assert (∀ n, n < 1 ∨ Z.of_nat (num_pages (length qs)) < n →
            Paginator_page qs n = Raise Http404) as Hfail.
  { intros n Hn. unfold Paginator_page, validate_number.
    repeat case_bool_decide; simpl; try done; lia. }
  split; [split|].
  - destruct page as [|n| |]; simpl; intros Hp.
    + apply Hraise in Hp. lia.
    + apply Hraise in Hp. right. exists n. tauto.
    + apply Hraise in Hp. lia.
    + by left.
  - intros [->|(n & -> & Hn)]; simpl; auto.
  - destruct page as [|n| |]; simpl; intros e He.
    + by apply Hraise in He as [-> _].
    + by apply Hraise in He as [-> _].
    + by apply Hraise in He as [-> _].
    + congruence.
Qed.

(** X9: a page that is served holds at most [paginate_by] rows, exactly
    [paginate_by] when it is not the last one, and at least one row
    unless the query set is empty. *)
Theorem page_sizes {A} (qs pg : list A) n :
  paginate_queryset qs (page_number n) = Return pg →
  (length pg ≤ paginate_by)%nat ∧
  (n < Z.of_nat (num_pages (length qs)) → length pg = paginate_by) ∧
  (qs ≠ [] → pg ≠ []).
Proof.
  simpl. intros (k & Hk & -> & ->)%Paginator_page_Return.
  pose proof (num_pages_bounds (length qs)) as [Hcov Htight].
  rewrite length_take, length_drop. unfold paginate_by in *.
  split; [lia|]. split; [lia|].
  intros Hne Hnil. apply (f_equal length) in Hnil.
  rewrite length_take, length_drop in Hnil.
  assert (length qs ≠ 0)%nat by (by destruct qs).
  change (length (@nil A)) with 0%nat in Hnil. lia.
Qed.

Lemma page_sizes_witness :
  ∃ pg, paginate_queryset (seq 0 25) (page_number 3) = Return pg ∧
        pg ≠ [] ∧ (length pg ≤ paginate_by)%nat.
Proof.
  eexists. split; [vm_compute; reflexivity|].
  destruct (page_sizes (seq 0 25) _ 3 eq_refl) as (Hlen & _ & Hne).
  split; [by apply Hne|exact Hlen].
Defined.

(** ** Who may write, and when *)

Section Writes.

Variable PostForm : DB → QueryDict → option Post.t → option Post.t.
Variable CommentForm : DB → QueryDict → option Comment.t → option Comment.t.
Variable UserForm : DB → QueryDict → option User.t → option User.t.

(** X10: an anonymous requester of the views behind
    [LoginRequiredMixin] is sent to the login page, whatever the method,
    the data and the target, and the store is unchanged. *)
Theorem anonymous_sent_to_login request id db :
  user request = AnonymousUser →
  handle (PostCreateView PostForm request) db
    = (HttpResponseRedirect login_url, db) ∧
  handle (CommentCreateView CommentForm request id) db
    = (HttpResponseRedirect login_url, db) ∧
  handle (ProfileUpdateView UserForm request) db
    = (HttpResponseRedirect login_url, db).
Proof. intros Hu. unfold_views. rewrite Hu. done. Qed.

(** X11: editing or deleting a post or a comment that is not stored is
    answered "not found" for every requester, the anonymous one
    included: the object is looked up before the author is tested. *)
Theorem missing_object_not_found request id db :
  (posts db !! id = None →
   handle (PostUpdateView PostForm request id) db = (HttpResponseNotFound, db) ∧
   handle (PostDeleteView request id) db = (HttpResponseNotFound, db)) ∧
  (comments db !! id = None →
   handle (CommentUpdateView CommentForm request id) db
     = (HttpResponseNotFound, db) ∧
   handle (CommentDeleteView request id) db = (HttpResponseNotFound, db)).
Proof. split; intros Hnone; unfold_views; simpl; rewrite Hnone; done. Qed.

(** X12: a GET request to any of the views that write leaves the store
    as it is. *)
Theorem get_never_writes request id db :
  method request = GET →
  (PostCreateView PostForm request db).2 = db ∧
  (PostUpdateView PostForm request id db).2 = db ∧
  (PostDeleteView request id db).2 = db ∧
  (CommentCreateView CommentForm request id db).2 = db ∧
  (CommentUpdateView CommentForm request id db).2 = db ∧
  (CommentDeleteView request id db).2 = db ∧
  (ProfileUpdateView UserForm request db).2 = db.
Proof.
  intros Hm. unfold_views. rewrite Hm. simpl.
  repeat split; repeat (case_match; simpl; try done).
Qed.

(** X13: a POST whose data the view's form rejects, bound as the view
    binds it (to no instance when creating, to the stored post or
    comment when editing, to the requester's row for the profile),
    leaves the store as it is. *)
Theorem invalid_form_never_writes request id db :
  method request = POST →
  (PostForm db (POST_data request) None = None →
   (PostCreateView PostForm request db).2 = db) ∧
  ((∀ p, posts db !! id = Some p →
         PostForm db (POST_data request) (Some p) = None) →
   (PostUpdateView PostForm request id db).2 = db) ∧
  (CommentForm db (POST_data request) None = None →
   (CommentCreateView CommentForm request id db).2 = db) ∧
  ((∀ c, comments db !! id = Some c →
         CommentForm db (POST_data request) (Some c) = None) →
   (CommentUpdateView CommentForm request id db).2 = db) ∧
  ((∀ uid row, user request = AuthenticatedUser uid row →
               UserForm db (POST_data request) (Some row) = None) →
   (ProfileUpdateView UserForm request db).2 = db).
Proof.
  intros Hm. unfold_views. rewrite Hm. simpl.
  split; [|split; [|split; [|split]]].
  - intros Hform. destruct (user request); simpl; [done|]. by rewrite Hform.
  - intros Hform. destruct (posts db !! id) as [p|] eqn:Hp; simpl; [|done].
    destruct (user_eq _ _); simpl; [|done]. by rewrite (Hform p).
  - intros Hform. destruct (user request); simpl; [done|]. by rewrite Hform.
  - intros Hform. destruct (comments db !! id) as [c|] eqn:Hc; simpl; [|done].
    destruct (user_eq _ _); simpl; [|by destruct (user request)].
    rewrite Hc. simpl. by rewrite (Hform c).
  - intros Hform. destruct (user request) as [|uid row]; simpl; [done|].
    by rewrite (Hform uid row).
Qed.

(** X14: no view changes the category table, and only the profile form
    changes the user table. *)
Theorem categories_and_users_kept request id db :
  (categories (PostCreateView PostForm request db).2 = categories db ∧
   users (PostCreateView PostForm request db).2 = users db) ∧
  (categories (PostUpdateView PostForm request id db).2 = categories db ∧
   users (PostUpdateView PostForm request id db).2 = users db) ∧
  (categories (PostDeleteView request id db).2 = categories db ∧
   users (PostDeleteView request id db).2 = users db) ∧
  (categories (CommentCreateView CommentForm request id db).2 = categories db ∧
   users (CommentCreateView CommentForm request id db).2 = users db) ∧
  (categories (CommentUpdateView CommentForm request id db).2 = categories db ∧
   users (CommentUpdateView CommentForm request id db).2 = users db) ∧
  (categories (CommentDeleteView request id db).2 = categories db ∧
   users (CommentDeleteView request id db).2 = users db) ∧
  categories (ProfileUpdateView UserForm request db).2 = categories db.
Proof.
  unfold_views. simpl.
  repeat split; repeat (case_match; simpl in *; simplify_eq; try done).
Qed.

End Writes.

Lemma anonymous_sent_to_login_witness :
  handle (CommentCreateView example_CommentForm
            (request_of AnonymousUser POST) 9) example_db
  = (HttpResponseRedirect login_url, example_db).
Proof.
  apply (anonymous_sent_to_login example_PostForm example_CommentForm
           example_UserForm (request_of AnonymousUser POST) 9%nat example_db).
  reflexivity.
Defined.

Lemma missing_object_not_found_witness :
  handle (PostDeleteView (request_of AnonymousUser POST) 9) example_db
    = (HttpResponseNotFound, example_db) ∧
  handle (CommentUpdateView example_CommentForm
            (request_of (AuthenticatedUser 2 bob) POST) 9) example_db
    = (HttpResponseNotFound, example_db).
Proof.
  split.
  - apply (missing_object_not_found example_PostForm example_CommentForm
             (request_of AnonymousUser POST) 9%nat example_db).
    reflexivity.
  - apply (missing_object_not_found example_PostForm example_CommentForm
             (request_of (AuthenticatedUser 2 bob) POST) 9%nat example_db).
    reflexivity.
Defined.

Lemma get_never_writes_witness :
  (PostDeleteView (request_of (AuthenticatedUser 1 alice) GET) 1
     example_db).2 = example_db ∧
  (PostDeleteView (request_of (AuthenticatedUser 1 alice) GET) 1
     example_db).1
  = Return (TemplateResponse "blog/create.html" form_context).
Proof.
  split; [|reflexivity].
  apply (get_never_writes example_PostForm example_CommentForm
           example_UserForm
           (request_of (AuthenticatedUser 1 alice) GET) 1%nat example_db).
  reflexivity.
Defined.

Lemma invalid_form_never_writes_witness :
  (PostUpdateView example_PostForm
     (mkRequest (AuthenticatedUser 1 alice) POST page_absent ∅) 1
     example_db).2 = example_db ∧
  strict_UserForm example_db (<["username" := "bob"]> ∅) (Some bob)
    = Some bob ∧
  (ProfileUpdateView strict_UserForm
     (mkRequest (AuthenticatedUser 1 alice) POST page_absent
                (<["username" := "bob"]> ∅)) example_db).2 = example_db.
Proof.
  split; [|split; [vm_compute; reflexivity|]].
  - apply (invalid_form_never_writes example_PostForm example_CommentForm
             example_UserForm
             (mkRequest (AuthenticatedUser 1 alice) POST page_absent ∅)
             1%nat example_db); [reflexivity|].
    intros p Hp. reflexivity.
  - apply (invalid_form_never_writes example_PostForm example_CommentForm
             strict_UserForm
             (mkRequest (AuthenticatedUser 1 alice) POST page_absent
                        (<["username" := "bob"]> ∅))
             1%nat example_db); [reflexivity|].
    intros uid row [= <- <-]. vm_compute. reflexivity.
Defined.

(** ** What the author's requests do *)

Lemma count_comments_insert db k c j :
  comments db !! k = None →
  count_comments (with_comments (<[k := c]> (comments db)) db) j
  = ((if decide (Comment.post c = j) then 1 else 0) + count_comments db j)%nat.
Proof.
  intros Hk. unfold count_comments, objects_all. simpl.
  rewrite (map_to_list_insert _ _ _ Hk), filter_cons. simpl.
  by destruct (decide (Comment.post c = j)).
Qed.

Lemma count_comments_delete db k c j :
  comments db !! k = Some c →
  count_comments db j
  = ((if decide (Comment.post c = j) then 1 else 0)
     + count_comments (with_comments (delete k (comments db)) db) j)%nat.
Proof.
  intros Hk. unfold count_comments, objects_all. simpl.
  rewrite <- (map_to_list_delete _ _ _ Hk), filter_cons. simpl.
  by destruct (decide (Comment.post c = j)).
Qed.

Section AuthorWrites.

Variable PostForm : DB → QueryDict → option Post.t → option Post.t.
Variable CommentForm : DB → QueryDict → option Comment.t → option Comment.t.
Variable UserForm : DB → QueryDict → option User.t → option User.t.

(** X15: when the author posts data the form accepts, the post is
    replaced under its key by the form's instance, every other post and
    all comments stay, and the answer is the redirect to the post. *)
Theorem post_update_by_author request id p instance db :
  posts db !! id = Some p →
  user_eq (Post.author p) (user request) = true →
  method request = POST →
  PostForm db (POST_data request) (Some p) = Some instance →
  ∃ db',
    handle (PostUpdateView PostForm request id) db
      = (HttpResponseRedirect (blog_post_detail id), db') ∧
    posts db' !! id = Some instance ∧
    (∀ j, j ≠ id → posts db' !! j = posts db !! j) ∧
    dom (posts db') = dom (posts db) ∧
    comments db' = comments db.
Proof.
  intros Hp Hu Hm Hform. eexists. split.
  - unfold_views. simpl. rewrite Hp. simpl. rewrite Hu, Hm. simpl.
    rewrite Hform. reflexivity.
  - simpl. split; [apply lookup_insert_eq|].
    split; [intros j Hj; by apply lookup_insert_ne|]. split; [|done].
    by apply dom_insert_lookup_L.
Qed.

(** X16: when the author confirms the deletion, the post is gone and
    the answer is the redirect to the index; other posts, and the
    comments on other posts, stay; from then on the post page answers
    "not found" to everyone and the index does not list the post. *)
Theorem post_delete_by_author request id p db :
  posts db !! id = Some p →
  user_eq (Post.author p) (user request) = true →
  method request = POST →
  ∃ db',
    handle (PostDeleteView request id) db
      = (HttpResponseRedirect blog_index, db') ∧
    posts db' = delete id (posts db) ∧
    (∀ cid c, comments db !! cid = Some c → Comment.post c ≠ id →
              comments db' !! cid = Some c) ∧
    (∀ request',
       get_response (PostDetailView db' request' id) = HttpResponseNotFound) ∧
    (∀ now q, ¬ listed id q (PostsListView_get_queryset db' now)).
Proof.
  intros Hp Hu Hm. eexists. split.
  - unfold_views. simpl. rewrite Hp. simpl.
    unfold author_of, Post_authored. rewrite Hu, Hm. simpl.
    rewrite Hp. reflexivity.
  - simpl. split; [done|]. split.
    { intros cid c Hc Hne. by apply map_lookup_filter_Some. }
    split.
    + intros request'. unfold PostDetailView.
      rewrite PostDetailView_get_object_unfold. simpl.
      by rewrite lookup_delete_eq.
    + intros now q [n Hn].
      apply elem_of_PostsListView_get_queryset in Hn as [Hq _].
      simpl in Hq. by rewrite lookup_delete_eq in Hq.
Qed.

(** X17: when the author posts data the comment form accepts, the
    comment is replaced under its key by the form's instance, posts are
    untouched, and the redirect goes to the post of the comment as
    saved. *)
Theorem comment_update_by_author request cid c instance db :
  comments db !! cid = Some c →
  user_eq (Comment.author c) (user request) = true →
  method request = POST →
  CommentForm db (POST_data request) (Some c) = Some instance →
  handle (CommentUpdateView CommentForm request cid) db
  = (HttpResponseRedirect (blog_post_detail (Comment.post instance)),
     with_comments (<[cid := instance]> (comments db)) db).
Proof.
  intros Hc Hu Hm Hform. unfold_views. simpl. rewrite Hc. simpl.
  unfold author_of, Comment_authored. rewrite Hu, Hm. simpl.
  rewrite Hc. simpl. rewrite Hform. simpl.
  rewrite lookup_insert_eq. reflexivity.
Qed.

(** X18: when the author confirms the deletion of a comment, exactly
    that comment is removed, the redirect goes to the post it was on,
    that post's comment count drops by one and no other count
    changes. *)
Theorem comment_delete_by_author request cid c db :
  comments db !! cid = Some c →
  user_eq (Comment.author c) (user request) = true →
  method request = POST →
  ∃ db',
    handle (CommentDeleteView request cid) db
      = (HttpResponseRedirect (blog_post_detail (Comment.post c)), db') ∧
    comments db' = delete cid (comments db) ∧
    posts db' = posts db ∧
    count_comments db (Comment.post c)
      = S (count_comments db' (Comment.post c)) ∧
    (∀ j, j ≠ Comment.post c → count_comments db' j = count_comments db j).
Proof.
  intros Hc Hu Hm. eexists. split.
  - unfold_views. simpl. rewrite Hc. simpl.
    unfold author_of, Comment_authored. rewrite Hu, Hm. simpl.
    rewrite Hc. reflexivity.
  - split; [done|]. split; [done|]. split.
    + rewrite (count_comments_delete _ _ _ _ Hc). by rewrite decide_True.
    + intros j Hj. rewrite (count_comments_delete db _ _ j Hc).
      by rewrite decide_False.
Qed.

(** X19: a comment that is created raises the comment count of its post
    by one and leaves every other count, and all posts, as they were. *)
Theorem comment_creation_counts request uid row instance id p db :
  user request = AuthenticatedUser uid row →
  method request = POST →
  CommentForm db (POST_data request) None = Some instance →
  posts db !! id = Some p →
  ∃ db',
    handle (CommentCreateView CommentForm request id) db
      = (HttpResponseRedirect (blog_post_detail id), db') ∧
    posts db' = posts db ∧
    count_comments db' id = S (count_comments db id) ∧
    (∀ j, j ≠ id → count_comments db' j = count_comments db j).
Proof.
  intros Hu Hm Hform Hp. eexists. split.
  - unfold_views. rewrite Hu, Hm. simpl. rewrite Hform. simpl.
    rewrite Hp. reflexivity.
  - split; [done|]. split.
    + rewrite count_comments_insert by apply next_pk_fresh.
      by rewrite decide_True.
    + intros j Hj. rewrite count_comments_insert by apply next_pk_fresh.
      by rewrite decide_False.
Qed.

(** X20: the profile form writes the requester's own row and no other:
    the row of the authenticated user becomes the form's instance, every
    other user, and all posts and comments, stay, and the redirect goes
    to the profile of the saved user name. *)
Theorem profile_update_only_self request uid row instance db :
  user request = AuthenticatedUser uid row →
  method request = POST →
  UserForm db (POST_data request) (Some row) = Some instance →
  ∃ db',
    handle (ProfileUpdateView UserForm request) db
      = (HttpResponseRedirect (blog_profile (User.username instance)), db') ∧
    users db' !! uid = Some instance ∧
    (∀ j, j ≠ uid → users db' !! j = users db !! j) ∧
    posts db' = posts db ∧
    comments db' = comments db.
Proof.
  intros Hu Hm Hform. eexists. split.
  - unfold_views. rewrite Hu, Hm. simpl. rewrite Hform. reflexivity.
  - simpl. split; [apply lookup_insert_eq|].
    split; [intros j Hj; by apply lookup_insert_ne|done].
Qed.

End AuthorWrites.

Lemma post_update_by_author_witness :
  ∃ db',
    handle (PostUpdateView example_PostForm
              (request_of (AuthenticatedUser 1 alice) POST) 1) example_db
      = (HttpResponseRedirect (blog_post_detail 1), db') ∧
    posts db' !! 1%nat = Some (Post.mk "first" "hello" 5 1 None 1 true) ∧
    posts db' !! 2%nat = Some post2.
Proof.
  destruct (post_update_by_author example_PostForm
              (request_of (AuthenticatedUser 1 alice) POST) 1%nat post1 _
              example_db eq_refl eq_refl eq_refl eq_refl)
    as (db' & Hresp & Hsaved & Hothers & _).
  exists db'. split; [exact Hresp|]. split; [exact Hsaved|].
  rewrite Hothers by lia. reflexivity.
Defined.

Lemma post_delete_by_author_witness :
  ∃ db',
    handle (PostDeleteView (request_of (AuthenticatedUser 1 alice) POST) 1)
           example_db
      = (HttpResponseRedirect blog_index, db') ∧
    get_response (PostDetailView db' (request_of AnonymousUser GET) 1)
      = HttpResponseNotFound.
Proof.
  destruct (post_delete_by_author
              (request_of (AuthenticatedUser 1 alice) POST) 1%nat post1
              example_db eq_refl eq_refl eq_refl)
    as (db' & Hresp & _ & _ & Hgone & _).
  exists db'. split; [exact Hresp|apply Hgone].
Defined.

Lemma comment_update_by_author_witness :
  handle (CommentUpdateView example_CommentForm
            (request_of (AuthenticatedUser 2 bob) POST) 1) example_db
  = (HttpResponseRedirect (blog_post_detail 1),
     with_comments (<[1%nat := Comment.mk "hello" 1 2]> (comments example_db))
                   example_db).
Proof.
  apply (comment_update_by_author example_CommentForm
           (request_of (AuthenticatedUser 2 bob) POST) 1%nat comment1
           (Comment.mk "hello" 1 2) example_db); reflexivity.
Defined.

Lemma comment_delete_by_author_witness :
  ∃ db',
    handle (CommentDeleteView (request_of (AuthenticatedUser 2 bob) POST) 1)
           example_db
      = (HttpResponseRedirect (blog_post_detail 1), db') ∧
    count_comments example_db 1 = S (count_comments db' 1).
Proof.
  destruct (comment_delete_by_author
              (request_of (AuthenticatedUser 2 bob) POST) 1%nat comment1
              example_db eq_refl eq_refl eq_refl)
    as (db' & Hresp & _ & _ & Hcount & _).
  exists db'. split; [exact Hresp|exact Hcount].
Defined.

Lemma comment_creation_counts_witness :
  ∃ db',
    handle (CommentCreateView example_CommentForm
              (request_of (AuthenticatedUser 1 alice) POST) 3) example_db
      = (HttpResponseRedirect (blog_post_detail 3), db') ∧
    count_comments db' 3 = S (count_comments example_db 3) ∧
    count_comments db' 1 = count_comments example_db 1.
Proof.
  destruct (comment_creation_counts example_CommentForm
              (request_of (AuthenticatedUser 1 alice) POST) 1%nat alice _
              3%nat post3 example_db eq_refl eq_refl eq_refl eq_refl)
    as (db' & Hresp & _ & Hcount & Hothers).
  exists db'. split; [exact Hresp|]. split; [exact Hcount|].
  apply Hothers. lia.
Defined.

Lemma profile_update_only_self_witness :
  ∃ db',
    handle (ProfileUpdateView example_UserForm
              (mkRequest (AuthenticatedUser 1 alice) POST page_absent
                         (<["username" := "alicia"]> ∅))) example_db
      = (HttpResponseRedirect (blog_profile "alicia"), db') ∧
    users db' !! 1%nat = Some (User.mk "alicia") ∧
    users db' !! 2%nat = Some bob.
Proof.
  destruct (profile_update_only_self example_UserForm
              (mkRequest (AuthenticatedUser 1 alice) POST page_absent
                         (<["username" := "alicia"]> ∅))
              1%nat alice (User.mk "alicia") example_db)
    as (db' & Hresp & Hself & Hothers & _);
    [reflexivity|reflexivity|vm_compute; reflexivity|].
  exists db'. split; [exact Hresp|]. split; [exact Hself|].
  rewrite Hothers by lia. reflexivity.
Defined.

(** ** From creating a post to the author's profile *)

Lemma ProfileListView_get_queryset_found db now request username profile u :
  users db !! profile = Some u →
  User.username u = username →
  (∀ id' u', users db !! id' = Some u' → User.username u' = username →
             id' = profile) →
  ∃ qs, ProfileListView_get_queryset db now request username
        = Return (profile, qs).
Proof.
  intros Hu Hname Huniq. unfold ProfileListView_get_queryset.
  rewrite (get_object_or_404_unique (users db) _ profile u);
    [simpl; eauto|done|by apply bool_decide_eq_true|].
  intros id' u' Hu' Hn%bool_decide_eq_true. eauto.
Qed.

Section CreateThenProfile.

Variable PostForm : DB → QueryDict → option Post.t → option Post.t.

(** X21: when a stored user, the only one of that name, creates a post,
    the redirect goes to that user's profile, and the profile listing
    the same requester then gets holds the new post, whatever its
    publication state; the posts stored before keep their keys and
    contents. *)
Theorem created_post_on_own_profile request uid row instance db now :
  user request = AuthenticatedUser uid row →
  users db !! uid = Some row →
  (∀ id' u', users db !! id' = Some u' →
             User.username u' = User.username row → id' = uid) →
  method request = POST →
  PostForm db (POST_data request) None = Some instance →
  ∃ db' qs,
    handle (PostCreateView PostForm request) db
      = (HttpResponseRedirect (blog_profile (User.username row)), db') ∧
    ProfileListView_get_queryset db' now request (User.username row)
      = Return (uid, qs) ∧
    listed (next_pk (posts db)) (Post.set_author uid instance) qs ∧
    (∀ id p, posts db !! id = Some p → posts db' !! id = Some p).
Proof.
  intros Hu Hrow Huniq Hm Hform.
  pose (db' := with_posts (<[next_pk (posts db) :=
                               Post.set_author uid instance]> (posts db)) db).
  destruct (ProfileListView_get_queryset_found db' now request
              (User.username row) uid row) as [qs Hq]; [done..|].
  exists db', qs. split; [|split; [done|split]].
  - unfold_views. rewrite Hu, Hm. simpl. rewrite Hform. reflexivity.
  - apply ProfileListView_get_queryset_Return in Hq as [_ Hqs].
    exists (count_comments db' (next_pk (posts db))).
    apply Hqs. simpl. rewrite lookup_insert_eq, Hu. simpl.
    split; [done|]. split; [done|]. split; [|done].
    left. by apply bool_decide_eq_true.
  - intros id p Hp. simpl. rewrite lookup_insert_ne; [done|].
    intros <-. by rewrite next_pk_fresh in Hp.
Qed.

End CreateThenProfile.

Lemma created_post_on_own_profile_witness :
  ∃ db' qs instance,
    handle (PostCreateView example_PostForm
              (request_of (AuthenticatedUser 2 bob) POST)) example_db
      = (HttpResponseRedirect (blog_profile "bob"), db') ∧
    ProfileListView_get_queryset db' 10
      (request_of (AuthenticatedUser 2 bob) POST) "bob" = Return (2%nat, qs) ∧
    listed 5 (Post.set_author 2 instance) qs.
Proof.
  edestruct (created_post_on_own_profile example_PostForm
               (request_of (AuthenticatedUser 2 bob) POST) 2%nat bob
               (Post.mk "" "hello" 0 1 None 1 true) example_db 10)
    as (db' & qs & Hresp & Hq & Hlisted & _);
    [reflexivity|reflexivity| |reflexivity|vm_compute; reflexivity|].
  { intros id' u' Hu' Hname. unfold example_db in Hu'. simpl in Hu'.
    destruct (decide (id' = 2%nat)) as [->|]; [done|].
    lookup_cases Hu'. }
  exists db', qs, (Post.mk "" "hello" 0 1 None 1 true).
  split; [exact Hresp|]. split; [exact Hq|exact Hlisted].
Defined.

Lemma post_detail_not_found_iff_witness :
  get_response (PostDetailView example_db
                  (request_of (AuthenticatedUser 1 alice) GET) 3)
  = HttpResponseNotFound ∧
  get_response (PostDetailView example_db
                  (request_of (AuthenticatedUser 2 bob) GET) 3)
  = TemplateResponse "blog/detail.html" (detail_context 3 post3 []).
Proof.
  split.
  - apply (post_detail_not_found_iff example_db
             (request_of (AuthenticatedUser 1 alice) GET) 3%nat).
    right. exists post3. repeat split; reflexivity.
  - destruct (post_detail_not_found_iff example_db
                (request_of (AuthenticatedUser 2 bob) GET) 3%nat)
      as [_ Hserved].
    apply (Hserved post3); [reflexivity|]. right. reflexivity.
Defined.

Lemma page_not_found_iff_witness :
  paginate_queryset (seq 0 25) (page_number 4) = Raise Http404.
Proof.
  apply (page_not_found_iff (seq 0 25) (page_number 4)).
  right. exists 4. split; [reflexivity|]. right. vm_compute. reflexivity.
Defined.
